(** * LongxingToolkit: the DeepSeek chat client

    A shallow embedding of the store ([ConfigManager]), the transport
    ([DeepSeekClient]), the worker ([ApiRequestThread]) and the handlers of
    the main window ([DeepSeekApp]) of [deepseek_python_20250718_eb2c6a.py],
    followed by the properties of the streaming pipeline.

    Conventions of the embedding:
    - a Python value that comes out of [json.load]/[json.loads] is a [json];
      a [dict] is a [gmap string json] (Python compares dicts without regard
      to order, as [gmap] does);
    - a Python [str] is the [string] of the bytes of its UTF-8 encoding, as
      the source file writes its literals: [Str.encode] gives the [string]
      of a sequence of code points.  Lengths, slices and white space are
      those of the code points ([Str.len], [Str.take], [Str.strip]);
    - a Python exception is a value of [exn], a function that can raise
      returns a [result];
    - a generator is the finite trace [gen] of what it yields, ended by its
      return or by the exception that leaves it;
    - [time.time()] readings are rationals (seconds). *)

From stdpp Require Import gmap strings list fin_maps.
From Stdlib Require Import Ascii QArith.

#[local] Set Warnings "-register-all".
#[local] Close Scope Q_scope.
#[local] Open Scope string_scope.

(** ** Python values and exceptions *)

Inductive json : Type :=
| JNull
| JBool (b : bool)
| JInt (n : Z)
| JFloat (q : Q)
| JStr (s : string)
| JArr (l : list json)
| JObj (m : gmap string json).

Inductive exn : Type :=
| RateLimitExceeded      (* Exception("Rate limit exceeded") *)
| ConnectionError        (* ConnectionError("Network error") *)
| ValueError             (* ValueError("Invalid API response") *)
| RequestException       (* requests.exceptions.RequestException *)
| UnicodeDecodeError
| TypeError
| AttributeError
| KeyError
| IndexError.

Inductive result (A : Type) : Type :=
| Ok (a : A)
| Raise (e : exn).
Arguments Ok {A} a.
Arguments Raise {A} e.

(** [x ← r; k] runs [k] on the value of [r], an exception of [r] leaves
    the whole block. *)
#[global] Instance result_bind : MBind result := fun A B f r =>
  match r with
  | Ok a => f a
  | Raise e => Raise e
  end.

(** ** The string methods the source uses *)

Module Str.

(** [s.startswith(p)] *)
Fixpoint startswith (p s : string) : bool :=
  match p, s with
  | EmptyString, _ => true
  | String a p', String b s' => Ascii.eqb a b && startswith p' s'
  | String _ _, EmptyString => false
  end.

Fixpoint drop (n : nat) (s : string) : string :=
  match n, s with
  | O, _ => s
  | S n', String _ s' => drop n' s'
  | S _, EmptyString => EmptyString
  end.

(** The UTF-8 bytes of the code point [cp]. *)
Definition utf8 (cp : N) : string :=
  let byte (n : N) := String (ascii_of_N n) in
  if (cp <? 128)%N then byte cp EmptyString
  else if (cp <? 2048)%N then
    byte (192 + cp / 64)%N (byte (128 + cp mod 64)%N EmptyString)
  else if (cp <? 65536)%N then
    byte (224 + cp / 4096)%N
      (byte (128 + (cp / 64) mod 64)%N (byte (128 + cp mod 64)%N EmptyString))
  else
    byte (240 + cp / 262144)%N
      (byte (128 + (cp / 4096) mod 64)%N
         (byte (128 + (cp / 64) mod 64)%N (byte (128 + cp mod 64)%N EmptyString))).

(** The [str] whose code points are [cps]. *)
Fixpoint encode (cps : list N) : string :=
  match cps with
  | [] => EmptyString
  | cp :: cps' => utf8 cp +:+ encode cps'
  end.

(** A byte [10xxxxxx] continues the code point that began before it. *)
Definition continuation (a : ascii) : bool :=
  let n := N_of_ascii a in (128 <=? n)%N && (n <? 192)%N.

(** [len(s)]: the code points of [s] *)
Fixpoint len (s : string) : nat :=
  match s with
  | EmptyString => O
  | String a s' => if continuation a then len s' else S (len s')
  end.

(** [s[:n]]: the first [n] code points of [s] *)
Fixpoint take (n : nat) (s : string) : string :=
  match s with
  | EmptyString => EmptyString
  | String a s' =>
      if continuation a then String a (take n s')
      else match n with
           | O => EmptyString
           | S n' => String a (take n' s')
           end
  end.

(** [s[i:]] for the rest of a code point and for [i] code points. *)
Fixpoint skip_continuation (s : string) : string :=
  match s with
  | EmptyString => EmptyString
  | String a s' => if continuation a then skip_continuation s' else s
  end.

Fixpoint skip (i : nat) (s : string) : string :=
  match i, s with
  | O, _ => s
  | S i', String _ s' => skip i' (skip_continuation s')
  | S _, EmptyString => EmptyString
  end.

(** [s.replace(old, new, 1)] for a non-empty [old]: the leftmost
    occurrence is replaced. *)
Fixpoint replace_first (old new s : string) : string :=
  if startswith old s then new +:+ drop (String.length old) s
  else match s with
       | EmptyString => EmptyString
       | String a s' => String a (replace_first old new s')
       end.

(** The code points [str.isspace] accepts: those [s.strip()] removes. *)
Definition whitespace : list N :=
  [9; 10; 11; 12; 13; 28; 29; 30; 31; 32; 133; 160; 5760;
   8192; 8193; 8194; 8195; 8196; 8197; 8198; 8199; 8200; 8201; 8202;
   8232; 8233; 8239; 8287; 12288]%N.

(** What follows the white space [s] begins with, if it begins with some. *)
Definition after_space (s : string) : option string :=
  head (omap (fun cp => if startswith (utf8 cp) s
                        then Some (drop (String.length (utf8 cp)) s) else None)
             whitespace).

Fixpoint lstrip_loop (fuel : nat) (s : string) : string :=
  match fuel with
  | O => s
  | S fuel' => match after_space s with
               | Some s' => lstrip_loop fuel' s'
               | None => s
               end
  end.

(** Each turn of the loop removes a byte at least. *)
Definition lstrip (s : string) : string := lstrip_loop (String.length s) s.

(** What is left of [s] ends where its last white-space suffix begins. *)
Fixpoint rstrip (s : string) : string :=
  match s with
  | EmptyString => EmptyString
  | String a s' =>
      if String.eqb (lstrip s) EmptyString then EmptyString else String a (rstrip s')
  end.

(** [s.strip()] *)
Definition strip (s : string) : string := rstrip (lstrip s).

(** [p in s] for two strings *)
Fixpoint contains (p s : string) : bool :=
  startswith p s ||
  match s with
  | EmptyString => false
  | String _ s' => contains p s'
  end.

(** [s.split(c)] for a one-character separator *)
Fixpoint split (c : ascii) (s : string) : list string :=
  match s with
  | EmptyString => [EmptyString]
  | String a s' =>
      if Ascii.eqb a c then EmptyString :: split c s'
      else match split c s' with
           | w :: ws => String a w :: ws
           | [] => [String a EmptyString]
           end
  end.

End Str.

(** ** The operations of Python on the values of a document *)

Module Py.

(** [bool(x)] *)
Definition truthy (x : json) : bool :=
  match x with
  | JNull => false
  | JBool b => b
  | JInt n => negb (n =? 0)%Z
  | JFloat q => negb (Qeq_bool q 0%Q)
  | JStr s => negb (String.eqb s "")
  | JArr l => negb (Nat.eqb (length l) 0)
  | JObj m => negb (Nat.eqb (size m) 0)
  end.

Definition is_str (k : string) (x : json) : bool :=
  match x with
  | JStr s => String.eqb s k
  | _ => false
  end.

(** [k in x] for a string [k] *)
Definition contains (k : string) (x : json) : result bool :=
  match x with
  | JObj m => Ok (bool_decide (is_Some (m !! k)))
  | JArr l => Ok (existsb (is_str k) l)
  | JStr s => Ok (Str.contains k s)
  | _ => Raise TypeError
  end.

(** [x[k]] for a string [k] *)
Definition getitem (x : json) (k : string) : result json :=
  match x with
  | JObj m => match m !! k with
              | Some v => Ok v
              | None => Raise KeyError
              end
  | _ => Raise TypeError
  end.

(** [x[0]] *)
Definition getitem0 (x : json) : result json :=
  match x with
  | JArr (v :: _) => Ok v
  | JArr [] => Raise IndexError
  | JStr (String a s) => Ok (JStr (Str.take 1 (String a s)))
  | JStr EmptyString => Raise IndexError
  | JObj _ => Raise KeyError
  | _ => Raise TypeError
  end.

(** [len(x)] *)
Definition len (x : json) : result nat :=
  match x with
  | JArr l => Ok (length l)
  | JStr s => Ok (Str.len s)
  | JObj m => Ok (size m)
  | _ => Raise TypeError
  end.

(** [x.get(k, d)]: only a dict has the method *)
Definition get (x : json) (k : string) (d : json) : result json :=
  match x with
  | JObj m => Ok (default d (m !! k))
  | _ => Raise AttributeError
  end.

End Py.

(** ** ConfigManager: the persistent store *)

Module ConfigManager.

(** What [load_config] finds at [CONFIG_FILE]. *)
Inductive file : Type :=
| Missing                          (* os.path.exists(...) is False *)
| Unreadable                       (* open(...) or json.load(...) raises *)
| Document (loaded_config : json). (* what json.load(...) returns *)

(** The object and the file it writes.  [writable] says whether
    [open(CONFIG_FILE, 'w')] succeeds; [written] lists the documents that
    [json.dump] has written, oldest first. *)
Record t : Type := Build {
  config : gmap string json;
  CONFIG_FILE : file;
  writable : bool;
  written : list (gmap string json)
}.

Definition DEFAULT_USER : gmap string json :=
  list_to_map [("username", JStr ""); ("login_type", JStr "manual");
               ("last_login", JStr "")].

(** The class attribute, in the order of the source.  [copy()] is shallow:
    the history, the session and the user of the defaults are shared with
    every configuration that did not take them from the file.  The embedding
    takes the class attribute as the source writes it. *)
Definition DEFAULT_CONFIG : list (string * json) :=
  [("api_key", JStr ""); ("language", JStr "zh-CN"); ("theme", JStr "light");
   ("model", JStr "deepseek-chat"); ("stream", JBool true);
   ("update_interval", JInt 100); ("history", JArr []);
   ("current_session", JArr []); ("user", JObj DEFAULT_USER)].

(** [DEFAULT_CONFIG.copy()] *)
Definition DEFAULT_CONFIG_copy : gmap string json := list_to_map DEFAULT_CONFIG.

(** What [load_config] stores for a key of the file: [{**dflt, **v}] when
    both are dicts, [v] otherwise. *)
Definition merged (dflt v : json) : json :=
  match dflt, v with
  | JObj d, JObj l => JObj (l ∪ d)
  | _, _ => v
  end.

(** One turn of the loop of [load_config]. *)
Definition merge_key (loaded_config : json) (config : gmap string json)
    (kv : string * json) : result (gmap string json) :=
  let '(key, dflt) := kv in
  b ← Py.contains key loaded_config;
  if (b : bool) then
    v ← Py.getitem loaded_config key;
    Ok (<[key := merged dflt v]> config)
  else Ok config.

Fixpoint merge_keys (loaded_config : json) (config : gmap string json)
    (keys : list (string * json)) : result (gmap string json) :=
  match keys with
  | [] => Ok config
  | kv :: keys' =>
      config' ← merge_key loaded_config config kv;
      merge_keys loaded_config config' keys'
  end.

Definition load_config (f : file) : gmap string json :=
  match f with
  | Missing => DEFAULT_CONFIG_copy
  | Unreadable => DEFAULT_CONFIG_copy
  | Document loaded_config =>
      match merge_keys loaded_config DEFAULT_CONFIG_copy DEFAULT_CONFIG with
      | Ok config => config
      | Raise _ => DEFAULT_CONFIG_copy
      end
  end.

(** [ConfigManager()] on a file system. *)
Definition init (f : file) (w : bool) : t :=
  {| config := load_config f; CONFIG_FILE := f; writable := w; written := [] |}.

Definition set_config (self : t) (c : gmap string json) : t :=
  {| config := c; CONFIG_FILE := CONFIG_FILE self;
     writable := writable self; written := written self |}.

(** A failed write is printed and otherwise ignored. *)
Definition save_config (self : t) : t :=
  if writable self then
    {| config := config self; CONFIG_FILE := Document (JObj (config self));
       writable := true; written := (written self ++ [config self])%list |}
  else self.

Fixpoint get_loop (key : string) (current : json) (keys : list string)
    : result json :=
  match keys with
  | [] => Ok current
  | k :: keys' =>
      b ← Py.contains k current;
      if (b : bool) then
        current' ← Py.getitem current k;
        get_loop key current' keys'
      else Ok (default JNull (DEFAULT_CONFIG_copy !! key))
  end.

Definition get (self : t) (key : string) : result json :=
  get_loop key (JObj (config self)) (Str.split "." key).

Definition DEFAULT_TITLE : string := "无标题对话".

(** [session[0]["content"][:30] + ("..." if len(...) > 30 else "")].
    A content that is not a string raises [TypeError]: a number or [None]
    at the slice, a list at the [+], a dict at the slice (a slice is not
    hashable; from Python 3.12 on it is, and a dict raises [KeyError]). *)
Definition session_title (session : list json) : result string :=
  first ← Py.getitem0 (JArr session);
  content ← Py.getitem first "content";
  match content with
  | JStr s =>
      Ok (Str.take 30 s +:+ (if (30 <? Str.len s)%nat then "..." else ""))
  | _ => Raise TypeError
  end.

Definition title_of (session : list json) : result string :=
  match session_title session with
  | Raise IndexError | Raise KeyError => Ok DEFAULT_TITLE
  | r => r
  end.

Definition history_entry (title now : string) (session : list json) : json :=
  JObj (list_to_map [("title", JStr title); ("timestamp", JStr now);
                     ("messages", JArr session)]).

(** [now] is [datetime.now().isoformat()]. *)
Definition add_to_history (session : list json) (now : string) (self : t)
    : result t :=
  if negb (Py.truthy (JArr session)) then Ok self
  else
    title ← title_of session;
    history ← Py.getitem (JObj (config self)) "history";
    match history with
    | JArr h =>
        let h1 := history_entry title now session :: h in
        let h2 := if (50 <? length h1)%nat then take 50 h1 else h1 in
        Ok (save_config (set_config self (<["history" := JArr h2]> (config self))))
    | _ => Raise AttributeError
    end.

(** The sessions [add_to_history] archives: not empty, and with a first
    message for which the title can be computed. *)
Definition archivable (session : list json) : bool :=
  Py.truthy (JArr session) &&
  match title_of session with Ok _ => true | Raise _ => false end.

(** The entry a call makes of such a session. *)
Definition entry_of (call : list json * string) : json :=
  history_entry (match title_of call.1 with Ok title => title | Raise _ => "" end)
    call.2 call.1.

(** [self.config["history"][0]] *)
Definition newest_entry (self : t) : option json :=
  match config self !! "history" with
  | Some (JArr (e :: _)) => Some e
  | _ => None
  end.



Definition save_current_session (messages : list json) (self : t) : t :=
  save_config (set_config self (<["current_session" := JArr messages]> (config self))).

Definition get_user_info (self : t) : t * json :=
  match config self !! "user" with
  | Some user => (self, user)
  | None =>
      (save_config (set_config self (<["user" := JObj DEFAULT_USER]> (config self))),
       JObj DEFAULT_USER)
  end.

End ConfigManager.

(** ** Generators *)

(** What a generator does when it is run to its end: the values it yields,
    then its return ([GDone]) or the exception that leaves it.  A consumer
    that stops early sees a prefix. *)
Inductive gen (A : Type) : Type :=
| GDone
| GRaise (e : exn)
| GYield (a : A) (g : gen A).
Arguments GDone {A}.
Arguments GRaise {A} e.
Arguments GYield {A} a g.

(** The generator that yields [l] and then ends as [g]. *)
Fixpoint yields {A} (l : list A) (g : gen A) : gen A :=
  match l with
  | [] => g
  | a :: l' => GYield a (yields l' g)
  end.

Fixpoint gen_map_exn {A} (f : exn -> exn) (g : gen A) : gen A :=
  match g with
  | GDone => GDone
  | GRaise e => GRaise (f e)
  | GYield a g' => GYield a (gen_map_exn f g')
  end.

Definition Qlt_bool (x y : Q) : bool := negb (Qle_bool y x).

(** ** DeepSeekClient: the transport *)

Module DeepSeekClient.

Record t : Type := Build {
  api_key : json;
  last_request_time : Q;
  min_request_interval : Q
}.

Definition init (key : json) : t :=
  {| api_key := key; last_request_time := 0%Q; min_request_interval := 1%Q |}.

(** The body of one POST to [API_URL]. *)
Record request : Type := Request {
  authorization : json;            (* the credential of the Bearer header *)
  req_model : json;
  req_messages : list json;
  req_temperature : Q;
  req_max_tokens : Z;
  req_stream : bool
}.

(** One item of [response.iter_lines()]: bytes that are UTF-8 text
    (possibly none), or bytes that [decode('utf-8')] refuses. *)
Inductive raw_line : Type :=
| Utf8 (decoded_chunk : string)
| NotUtf8.

Record response : Type := Response {
  iter_lines : list raw_line;      (* the lines the connection delivers *)
  iter_lines_breaks : bool;        (* ... before it fails, if it does *)
  json_body : option json          (* response.json(), None if it raises *)
}.

Inductive http_result : Type :=
| RequestFailed                    (* requests.post raises *)
| StatusError                      (* raise_for_status raises *)
| Answer (r : response).

(** The two [except] clauses of [chat]. *)
Definition translate (e : exn) : exn :=
  match e with
  | RequestException => ConnectionError
  | KeyError | IndexError => ValueError
  | _ => e
  end.

Section Transport.

(** [json.loads]: [None] when it raises [JSONDecodeError]. *)
Variable json_loads : string -> option json.
(** The server and the network between. *)
Variable post : request -> http_result.

(** The body of the [try] of [process_stream] once [json.loads] has
    returned [data]: the content to yield, if any. *)
Definition delta_content (data : json) : result (option json) :=
  b ← Py.contains "choices" data;
  if (b : bool) then
    choices ← Py.getitem data "choices";
    n ← Py.len choices;
    if (0 <? n)%nat then
      choice ← Py.getitem0 choices;
      delta ← Py.get choice "delta" (JObj ∅);
      content ← Py.get delta "content" (JStr "");
      Ok (if Py.truthy content then Some content else None)
    else Ok None
  else Ok None.

Fixpoint process_stream (lines : list raw_line) (breaks : bool) : gen json :=
  match lines with
  | [] => if breaks then GRaise RequestException else GDone
  | NotUtf8 :: _ => GRaise UnicodeDecodeError
  | Utf8 decoded_chunk :: rest =>
      if String.eqb decoded_chunk "" then process_stream rest breaks
      else if Str.startswith "data:" decoded_chunk then
        let data_str := Str.strip (Str.replace_first "data: " "" decoded_chunk) in
        if String.eqb data_str "[DONE]" then GDone
        else match json_loads data_str with
             | None => process_stream rest breaks
             | Some data =>
                 match delta_content data with
                 | Raise e => GRaise e
                 | Ok None => process_stream rest breaks
                 | Ok (Some content) => GYield content (process_stream rest breaks)
                 end
             end
      else process_stream rest breaks
  end.

(** [data["choices"][0]["message"]["content"]] *)
Definition message_content (data : json) : result json :=
  choices ← Py.getitem data "choices";
  choice ← Py.getitem0 choices;
  message ← Py.getitem choice "message";
  Py.getitem message "content".

(** [chat] run at clock reading [current_time]: the client afterwards,
    the requests that went out, and what the generator yields.  The body of
    a generator starts when its consumer asks for the first value, which
    [ApiRequestThread.run] does at once.  A body that [response.json()]
    cannot decode raises a [RequestException] of [requests]. *)
Definition chat (self : t) (current_time : Q) (messages : list json)
    (model : json) (max_tokens : Z) (stream : bool)
    : t * list request * gen json :=
  if Qlt_bool (current_time - last_request_time self)%Q (min_request_interval self)
  then (self, [], GRaise RateLimitExceeded)
  else
    let self' := {| api_key := api_key self; last_request_time := current_time;
                    min_request_interval := min_request_interval self |} in
    let payload := {| authorization := api_key self; req_model := model;
                      req_messages := messages; req_temperature := (7 # 10)%Q;
                      req_max_tokens := max_tokens; req_stream := stream |} in
    (self', [payload],
     gen_map_exn translate
       match post payload with
       | RequestFailed | StatusError => GRaise RequestException
       | Answer r =>
           if stream then process_stream (iter_lines r) (iter_lines_breaks r)
           else match json_body r with
                | None => GRaise RequestException
                | Some data =>
                    match message_content data with
                    | Ok content => GYield content GDone
                    | Raise e => GRaise e
                    end
                end
       end).

(** The arguments of one call of [chat] and the clock reading at which
    its body starts. *)
Record call : Type := Call {
  at_time : Q;
  messages : list json;
  model : json;
  max_tokens : Z;
  stream : bool
}.

Definition chat_call (self : t) (c : call) : t * list request * gen json :=
  chat self (at_time c) (messages c) (model c) (max_tokens c) (stream c).

(** The client after a sequence of calls. *)
Fixpoint after_calls (self : t) (calls : list call) : t :=
  match calls with
  | [] => self
  | c :: calls' => after_calls (chat_call self c).1.1 calls'
  end.

End Transport.

End DeepSeekClient.

(** ** ApiRequestThread: the worker *)

Module ApiRequestThread.

(** [messages] is the list of the window, the same object: the field holds
    what the list contains when [run] hands it to [chat], which is what it
    contains when the thread is made unless the window appends in between. *)
Record t : Type := Build {
  messages : list json;
  model : json;
  stream : json;
  stop_requested : bool
}.

Inductive signal : Type :=
| response_received (chunk : string)
| error_occurred (error_msg : string)
| request_finished.

(** [str(e)].  The three exceptions that [chat] raises itself carry the
    text of the source.  For the others the text is the one Python or
    [requests] composes from the values at hand; a fixed text stands for
    it here, and none of those texts contains ["Rate limit exceeded"]. *)
Definition str (e : exn) : string :=
  match e with
  | RateLimitExceeded => "Rate limit exceeded"
  | ConnectionError => "Network error"
  | ValueError => "Invalid API response"
  | RequestException => "request failed"
  | UnicodeDecodeError => "'utf-8' codec can't decode byte"
  | TypeError => "unexpected type"
  | AttributeError => "object has no attribute"
  | KeyError => "0"
  | IndexError => "index out of range"
  end.

Definition error_msg (e : exn) : string :=
  if Str.contains "Rate limit exceeded" (str e)
  then "API调用过于频繁，请稍后再试"
  else "网络错误: " +:+ str e.

(** The [for] loops of [run] over what [chat] yields.  [stop_seen i] is
    what the worker reads in [stop_requested] before it forwards the
    chunk of index [i]; a chunk that is not a [str] makes [emit] raise. *)
Fixpoint forward (check_stop : bool) (stop_seen : nat -> bool) (i : nat)
    (g : gen json) : list signal :=
  match g with
  | GDone => [request_finished]
  | GRaise e => [error_occurred (error_msg e); request_finished]
  | GYield chunk g' =>
      if check_stop && stop_seen i then [request_finished]
      else match chunk with
           | JStr s => response_received s :: forward check_stop stop_seen (S i) g'
           | _ => [error_occurred (error_msg TypeError); request_finished]
           end
  end.

(** [run] on the client [client] at clock reading [now]: the client
    afterwards, the requests that went out, the signals in the order of
    their emission. *)
Definition run (json_loads : string -> option json)
    (post : DeepSeekClient.request -> DeepSeekClient.http_result)
    (self : t) (client : DeepSeekClient.t) (now : Q) (stop_seen : nat -> bool)
    : DeepSeekClient.t * list DeepSeekClient.request * list signal :=
  let streaming := Py.truthy (stream self) in
  let '(client', io, g) :=
    DeepSeekClient.chat json_loads post client now (messages self) (model self)
      2048 streaming in
  (client', io, forward streaming stop_seen 0 g).

End ApiRequestThread.

(** ** DeepSeekApp: the controller in the main window *)

Module DeepSeekApp.

(** A [QMessageBox.critical]. *)
Inductive dialog : Type :=
| no_api_key
| error (error_msg : string).

(** The attributes of the window that the exchange reads and writes.  The
    text widgets are left out.  [api_threads] holds every thread that was
    started, newest first: its head is [self.api_thread]. *)
Record t : Type := Build {
  config_manager : ConfigManager.t;
  client : option DeepSeekClient.t;
  streaming : bool;
  current_response : string;
  messages : list json;
  send_button : bool;              (* send_button.isEnabled() *)
  stop_button : bool;              (* stop_button.isEnabled() *)
  api_threads : list ApiRequestThread.t;
  critical : list dialog           (* oldest first *)
}.

(** The loop of [display_history]: each message is read at ["role"], and
    at ["content"] when the role is that of the user or of the assistant. *)
Fixpoint display_history (messages : list json) : result unit :=
  match messages with
  | [] => Ok ()
  | msg :: messages' =>
      role ← Py.getitem msg "role";
      _ ← (if Py.is_str "user" role || Py.is_str "assistant" role
           then Py.getitem msg "content" else Ok JNull);
      display_history messages'
  end.

(** [initialize_main_app], with the reads of the store in the order of the
    source: the credential, the session, the user name for the title of the
    window ([setup_ui]), the theme ([apply_theme]), the stored messages
    ([display_history]; a stored session that is not a list makes its loop
    raise) and the user name of the welcome message. *)
Definition initialize_main_app (cm : ConfigManager.t) : result t :=
  api_key ← ConfigManager.get cm "api_key";
  current_session ← ConfigManager.get cm "current_session";
  let '(cm1, user_info) := ConfigManager.get_user_info cm in
  _ ← Py.get user_info "username" (JStr "未登录用户");
  _ ← ConfigManager.get cm1 "theme";
  session ← (if Py.truthy current_session then
               match current_session with
               | JArr l => Ok l
               | _ => Raise TypeError
               end
             else Ok []);
  _ ← display_history session;
  _ ← Py.getitem user_info "username";
  Ok {| config_manager := cm1;
        client := if Py.truthy api_key then Some (DeepSeekClient.init api_key) else None;
        streaming := false; current_response := ""; messages := session;
        send_button := true; stop_button := false;
        api_threads := []; critical := [] |}.

Definition message (role content : string) : json :=
  JObj (list_to_map [("role", JStr role); ("content", JStr content)]).

(** [text] is [input_entry.text()]. *)
Definition send_message (text : string) (self : t) : result t :=
  let user_input := Str.strip text in
  if String.eqb user_input "" then Ok self
  else match client self with
  | None =>
      Ok {| config_manager := config_manager self; client := client self;
            streaming := streaming self; current_response := current_response self;
            messages := messages self; send_button := send_button self;
            stop_button := stop_button self; api_threads := api_threads self;
            critical := (critical self ++ [no_api_key])%list |}
  | Some _ =>
      let '(cm1, user_info) := ConfigManager.get_user_info (config_manager self) in
      _ ← Py.get user_info "username" (JStr "用户");
      let messages' := (messages self ++ [message "user" user_input])%list in
      let cm2 := ConfigManager.save_current_session messages' cm1 in
      model ← ConfigManager.get cm2 "model";
      stream ← ConfigManager.get cm2 "stream";
      let api_thread :=
        {| ApiRequestThread.messages := messages'; ApiRequestThread.model := model;
           ApiRequestThread.stream := stream;
           ApiRequestThread.stop_requested := false |} in
      Ok {| config_manager := cm2; client := client self;
            streaming := true; current_response := "";
            messages := messages'; send_button := false; stop_button := true;
            api_threads := api_thread :: api_threads self;
            critical := critical self |}
  end.

Definition update_response (response : string) (self : t) : t :=
  {| config_manager := config_manager self; client := client self;
     streaming := streaming self;
     current_response := current_response self +:+ response;
     messages := messages self; send_button := send_button self;
     stop_button := stop_button self; api_threads := api_threads self;
     critical := critical self |}.

(** The last three lines of [on_request_finished] and of [stop_streaming]. *)
Definition commit_response (self : t) : t :=
  if Py.truthy (JStr (current_response self)) then
    let messages' := (messages self ++ [message "assistant" (current_response self)])%list in
    {| config_manager := ConfigManager.save_current_session messages' (config_manager self);
       client := client self; streaming := streaming self;
       current_response := current_response self;
       messages := messages'; send_button := send_button self;
       stop_button := stop_button self; api_threads := api_threads self;
       critical := critical self |}
  else self.

(** [streaming = False], the stop button off, the send button on. *)
Definition back_to_idle (self : t) : t :=
  {| config_manager := config_manager self; client := client self;
     streaming := false; current_response := current_response self;
     messages := messages self; send_button := true; stop_button := false;
     api_threads := api_threads self; critical := critical self |}.

Definition on_request_finished (self : t) : t :=
  commit_response (back_to_idle self).

Definition on_api_error (error_msg : string) (self : t) : t :=
  let self' := back_to_idle self in
  {| config_manager := config_manager self'; client := client self';
     streaming := streaming self'; current_response := current_response self';
     messages := messages self'; send_button := send_button self';
     stop_button := stop_button self'; api_threads := api_threads self';
     critical := (critical self' ++ [error error_msg])%list |}.

(** [self.api_thread.stop()] *)
Definition stop_thread (threads : list ApiRequestThread.t) : list ApiRequestThread.t :=
  match threads with
  | api_thread :: older =>
      {| ApiRequestThread.messages := ApiRequestThread.messages api_thread;
         ApiRequestThread.model := ApiRequestThread.model api_thread;
         ApiRequestThread.stream := ApiRequestThread.stream api_thread;
         ApiRequestThread.stop_requested := true |} :: older
  | [] => []
  end.

Definition stop_streaming (self : t) : t :=
  match streaming self, api_threads self with
  | true, _ :: _ =>
      let self' := back_to_idle self in
      commit_response
        {| config_manager := config_manager self'; client := client self';
           streaming := streaming self'; current_response := current_response self';
           messages := messages self'; send_button := send_button self';
           stop_button := stop_button self';
           api_threads := stop_thread (api_threads self');
           critical := critical self' |}
  | _, _ => self
  end.

(** What reaches the window: the user's actions, each with the text of
    the input field at that moment, and the signals of the workers.  A
    disabled button emits no [clicked]. *)
Inductive event : Type :=
| click_send (text : string)
| return_pressed (text : string)
| click_stop
| from_worker (s : ApiRequestThread.signal).

Definition handle (self : t) (ev : event) : result t :=
  match ev with
  | click_send text => if send_button self then send_message text self else Ok self
  | return_pressed text => send_message text self
  | click_stop => Ok (if stop_button self then stop_streaming self else self)
  | from_worker (ApiRequestThread.response_received chunk) => Ok (update_response chunk self)
  | from_worker (ApiRequestThread.error_occurred msg) => Ok (on_api_error msg self)
  | from_worker ApiRequestThread.request_finished => Ok (on_request_finished self)
  end.

Fixpoint handle_all (self : t) (evs : list event) : result t :=
  match evs with
  | [] => Ok self
  | ev :: evs' => self' ← handle self ev; handle_all self' evs'
  end.

End DeepSeekApp.

(** * Properties *)

(** Closed facts on the examples are settled by evaluation. *)
Ltac evaluate :=
  intros; repeat match goal with |- _ /\ _ => split end; vm_compute; reflexivity.

(** ** Strings *)

Section StringFacts.

Ltac bytes_lia := zify; Z.to_euclidean_division_equations; lia.

Lemma continuation_byte (n : N) :
  (n < 256)%N -> Str.continuation (ascii_of_N n) = (128 <=? n)%N && (n <? 192)%N.
Proof. intros H. unfold Str.continuation. now rewrite N_ascii_embedding. Qed.

(** The code points of Unicode. *)
Definition code_point (cp : N) : Prop := (cp < 1114112)%N.

Fixpoint continuations (s : string) : bool :=
  match s with
  | EmptyString => true
  | String a s' => Str.continuation a && continuations s'
  end.

(** The encoding of a code point: a byte that begins it, then bytes that
    continue it. *)
Lemma utf8_shape (cp : N) :
  code_point cp ->
  exists a t, Str.utf8 cp = String a t /\ Str.continuation a = false /\
              continuations t = true.
Proof.
  unfold code_point. intros H. unfold Str.utf8.
  destruct (N.ltb_spec cp 128);
    [|destruct (N.ltb_spec cp 2048); [|destruct (N.ltb_spec cp 65536)]];
    eexists _, _; (split; [reflexivity|]); cbn [continuations];
    rewrite ?continuation_byte by bytes_lia;
    rewrite ?andb_true_r; (split; [apply andb_false_iff|]);
    rewrite ?andb_true_iff, ?N.leb_le, ?N.ltb_lt, ?N.leb_gt, ?N.ltb_ge; bytes_lia.
Qed.

Lemma len_continuations (t s : string) :
  continuations t = true -> Str.len (t +:+ s) = Str.len s.
Proof.
  induction t as [|a t IH]; [reflexivity|].
  cbn [continuations]. intros [Ha Ht]%andb_prop.
  change (String a t +:+ s) with (String a (t +:+ s)).
  cbn [Str.len]. rewrite Ha. auto.
Qed.

Lemma take_continuations (n : nat) (t s : string) :
  continuations t = true -> Str.take n (t +:+ s) = t +:+ Str.take n s.
Proof.
  induction t as [|a t IH]; [reflexivity|].
  cbn [continuations]. intros [Ha Ht]%andb_prop.
  change (String a t +:+ s) with (String a (t +:+ s)).
  cbn [Str.take]. rewrite Ha, IH by assumption. reflexivity.
Qed.

(** [len] counts the code points. *)
Lemma len_encode (cps : list N) :
  Forall code_point cps -> Str.len (Str.encode cps) = length cps.
Proof.
  induction 1 as [|cp cps Hcp _ IH]; [reflexivity|].
  destruct (utf8_shape cp Hcp) as (a & t & E & Ha & Ht).
  cbn [Str.encode length]. rewrite E.
  change (String a t +:+ Str.encode cps) with (String a (t +:+ Str.encode cps)).
  cbn [Str.len]. rewrite Ha, len_continuations, IH by assumption. reflexivity.
Qed.

(** [take] cuts between code points. *)
Lemma take_encode (n : nat) (cps : list N) :
  Forall code_point cps -> Str.take n (Str.encode cps) = Str.encode (take n cps).
Proof.
  intros H. revert n. induction H as [|cp cps Hcp _ IH]; intros n; [now destruct n|].
  destruct (utf8_shape cp Hcp) as (a & t & E & Ha & Ht).
  cbn [Str.encode]. rewrite E.
  change (String a t +:+ Str.encode cps) with (String a (t +:+ Str.encode cps)).
  cbn [Str.take]. rewrite Ha. destruct n as [|n]; [reflexivity|].
  rewrite take_continuations, IH by assumption. cbn [take Str.encode]. rewrite E.
  reflexivity.
Qed.

(** The literals of the source are the encodings of their code points. *)
Example DEFAULT_TITLE_code_points :
  ConfigManager.DEFAULT_TITLE = Str.encode [26080; 26631; 39064; 23545; 35805]%N /\
  Str.len ConfigManager.DEFAULT_TITLE = 5%nat.
Proof. vm_compute. split; reflexivity. Qed.

Example encode_ascii : Str.encode [104; 101; 108; 108; 111]%N = "hello".
Proof. vm_compute. reflexivity. Qed.

(** [strip] removes the white space of Unicode at both ends and leaves the
    rest alone. *)
Example strip_white_space :
  Str.strip (" " +:+ Str.encode [160; 12288]%N +:+ "[DONE] x"
             +:+ Str.encode [160; 133; 10; 8232]%N) = "[DONE] x" /\
  Str.strip "  " = "" /\ Str.strip "a b" = "a b".
Proof. vm_compute. repeat split; reflexivity. Qed.

Lemma app_empty_r (s : string) : s +:+ "" = s.
Proof.
  induction s as [|a s IH]; [reflexivity|].
  change (String a (s +:+ "") = String a s). now rewrite IH.
Qed.

Lemma startswith_app (p s : string) : Str.startswith p (p +:+ s) = true.
Proof.
  induction p as [|a p IH]; simpl; [reflexivity|].
  now rewrite Ascii.eqb_refl, IH.
Qed.

Lemma drop_app (p s : string) : Str.drop (String.length p) (p +:+ s) = s.
Proof. induction p as [|a p IH]; simpl; [reflexivity | exact IH]. Qed.

Lemma replace_first_eq (old new s : string) :
  Str.replace_first old new s =
  if Str.startswith old s then new +:+ Str.drop (String.length old) s
  else match s with
       | EmptyString => EmptyString
       | String a s' => String a (Str.replace_first old new s')
       end.
Proof. destruct s; reflexivity. Qed.

(** Removing a prefix that is there leaves the rest. *)
Lemma replace_first_prefix (p s : string) :
  Str.replace_first p "" (p +:+ s) = s.
Proof.
  rewrite replace_first_eq, startswith_app, drop_app. reflexivity.
Qed.

(** The letter d is no white space: [strip] leaves it in front. *)
Lemma strip_d (s : string) :
  exists s', Str.strip (String "d" s) = String "d" s'.
Proof.
  assert (forall s, Str.lstrip (String "d" s) = String "d" s) as Hl.
  { intros s0. unfold Str.lstrip. cbn [String.length Str.lstrip_loop].
    replace (Str.after_space (String "d" s0)) with (@None string); [reflexivity|].
    vm_compute. reflexivity. }
  exists (Str.rstrip s). unfold Str.strip. rewrite Hl. cbn [Str.rstrip]. rewrite Hl.
  reflexivity.
Qed.

End StringFacts.

(** ** The store *)

Section StoreFacts.

Import ConfigManager.

Implicit Types (self : ConfigManager.t) (config doc : gmap string json).

Lemma config_save_config self : config (save_config self) = config self.
Proof. unfold save_config. destruct (writable self); reflexivity. Qed.

Lemma merge_key_dict doc config key dflt :
  merge_key (JObj doc) config (key, dflt) =
  Ok (match doc !! key with
      | Some v => <[key := merged dflt v]> config
      | None => config
      end).
Proof.
  unfold merge_key, Py.contains, Py.getitem. cbn [mbind result_bind].
  case_bool_decide as Hk.
  - destruct Hk as [v ->]. reflexivity.
  - destruct (doc !! key) eqn:E; [|reflexivity]. exfalso. apply Hk. eauto.
Qed.

(** The loop of [load_config] over a document that is a dict: it never
    raises, leaves the keys it does not visit alone, and gives each key it
    visits the value of the file when the file has one. *)
Lemma merge_keys_dict doc keys : forall config,
  exists config',
    merge_keys (JObj doc) config keys = Ok config' /\
    (forall k, k ∉ keys.*1 -> config' !! k = config !! k) /\
    (NoDup keys.*1 -> forall k dflt, (k, dflt) ∈ keys ->
       config' !! k = match doc !! k with
                      | Some v => Some (merged dflt v)
                      | None => config !! k
                      end).
Proof.
  induction keys as [|[key d] keys IH]; intros config.
  - exists config. split; [reflexivity|]. split; [reflexivity|].
    intros _ k dflt Hin. inversion Hin.
  - cbn [merge_keys]. rewrite merge_key_dict. cbn [mbind result_bind].
    set (c1 := match doc !! key with
               | Some v => <[key := merged d v]> config
               | None => config
               end).
    destruct (IH c1) as (config' & Hrun & Hout & Hin).
    exists config'. split; [exact Hrun|]. split.
    + intros k Hk. cbn in Hk. apply not_elem_of_cons in Hk as [Hne Hk].
      rewrite (Hout k Hk). subst c1.
      destruct (doc !! key); [rewrite lookup_insert_ne by congruence|]; reflexivity.
    + intros Hnd k dflt Hmem. cbn in Hnd. apply NoDup_cons in Hnd as [Hfresh Hnd].
      apply elem_of_cons in Hmem as [Heq | Hmem].
      * injection Heq as -> ->. rewrite (Hout key Hfresh). subst c1.
        destruct (doc !! key); [rewrite lookup_insert_eq|]; reflexivity.
      * assert (k ≠ key) as Hne.
        { intros ->. apply Hfresh. apply list_elem_of_fmap. exists (key, dflt). auto. }
        rewrite (Hin Hnd k dflt Hmem). subst c1.
        destruct (doc !! k); [reflexivity|].
        destruct (doc !! key); [rewrite lookup_insert_ne by congruence|]; reflexivity.
Qed.

Lemma DEFAULT_CONFIG_NoDup : NoDup DEFAULT_CONFIG.*1.
Proof. apply (bool_decide_unpack _). by vm_compute. Qed.

Lemma DEFAULT_CONFIG_copy_lookup k dflt :
  (k, dflt) ∈ DEFAULT_CONFIG -> DEFAULT_CONFIG_copy !! k = Some dflt.
Proof.
  intros H. unfold DEFAULT_CONFIG_copy.
  apply elem_of_list_to_map_1; [apply DEFAULT_CONFIG_NoDup | exact H].
Qed.

Lemma DEFAULT_CONFIG_copy_None k :
  k ∉ DEFAULT_CONFIG.*1 -> DEFAULT_CONFIG_copy !! k = None.
Proof. intros H. unfold DEFAULT_CONFIG_copy. now apply not_elem_of_list_to_map_1. Qed.

(** [load_config] on a document that is a dict, key by key. *)
Lemma load_config_dict doc :
  (forall k dflt, (k, dflt) ∈ DEFAULT_CONFIG ->
     load_config (Document (JObj doc)) !! k =
     Some (match doc !! k with Some v => merged dflt v | None => dflt end)) /\
  (forall k, k ∉ DEFAULT_CONFIG.*1 -> load_config (Document (JObj doc)) !! k = None).
Proof.
  unfold load_config.
  destruct (merge_keys_dict doc DEFAULT_CONFIG DEFAULT_CONFIG_copy)
    as (config' & -> & Hout & Hin).
  split.
  - intros k dflt Hmem. rewrite (Hin DEFAULT_CONFIG_NoDup k dflt Hmem).
    rewrite (DEFAULT_CONFIG_copy_lookup k dflt Hmem).
    destruct (doc !! k); reflexivity.
  - intros k Hk. rewrite (Hout k Hk). now apply DEFAULT_CONFIG_copy_None.
Qed.

End StoreFacts.

Section HistoryFacts.

Import ConfigManager.

Implicit Types (self : ConfigManager.t) (h : list json) (session : list json).

Lemma truncate_50 h :
  (if (50 <? length h)%nat then take 50 h else h) = take 50 h.
Proof.
  destruct (Nat.ltb_spec 50 (length h)); [reflexivity|].
  symmetry. apply take_ge. lia.
Qed.


(** One call on an archivable session: the entry goes in front and the
    list is cut at 50. *)
Lemma add_to_history_archivable self h session now :
  config self !! "history" = Some (JArr h) ->
  archivable session = true ->
  add_to_history session now self =
  Ok (save_config (set_config self
        (<["history" := JArr (take 50 (entry_of (session, now) :: h))]> (config self)))).
Proof.
  intros Hh Ha. unfold archivable in Ha. apply andb_prop in Ha as [Hne Ht].
  unfold add_to_history, entry_of. rewrite Hne. cbn [negb fst snd].
  destruct (title_of session) as [title|]; [|discriminate].
  cbn [mbind result_bind Py.getitem]. rewrite Hh. cbn [mbind result_bind].
  rewrite truncate_50. reflexivity.
Qed.

Lemma history_after_add self h session now self' :
  config self !! "history" = Some (JArr h) ->
  archivable session = true ->
  add_to_history session now self = Ok self' ->
  config self' !! "history" = Some (JArr (take 50 (entry_of (session, now) :: h))).
Proof.
  intros Hh Ha. rewrite (add_to_history_archivable _ h) by assumption.
  intros [= <-]. rewrite config_save_config. cbn. apply lookup_insert_eq.
Qed.



(** A conversation whose first message is a dict with a string content, or
    with none, is archivable. *)
Lemma archivable_message (first : gmap string json) (rest : list json) :
  (first !! "content" = None \/ exists c, first !! "content" = Some (JStr c)) ->
  archivable (JObj first :: rest) = true.
Proof.
  intros H. unfold archivable, title_of, session_title, Py.getitem0, Py.getitem.
  cbn [mbind result_bind Py.truthy length Nat.eqb negb andb].
  destruct H as [-> | [c ->]]; reflexivity.
Qed.

End HistoryFacts.

(** ** Claims on the store *)

Section StoreClaims.

Import ConfigManager.

(** A store started without a file, and one message of a user. *)
Definition empty_store : ConfigManager.t := init Missing true.
Definition hello : json := DeepSeekApp.message "user" "hello".

(** What [add_to_history] archives under the title it computes. *)
Lemma add_to_history_titled (self : ConfigManager.t) (h session : list json)
    (now title : string) :
  config self !! "history" = Some (JArr h) ->
  Py.truthy (JArr session) = true ->
  title_of session = Ok title ->
  exists self' entry,
    add_to_history session now self = Ok self' /\
    config self' !! "history" = Some (JArr (JObj entry :: take 49 h)) /\
    entry !! "title" = Some (JStr title) /\
    entry !! "timestamp" = Some (JStr now) /\
    entry !! "messages" = Some (JArr session).
Proof.
  intros Hh Hne Ht.
  assert (archivable session = true) as Ha.
  { unfold archivable. rewrite Hne, Ht. reflexivity. }
  eexists _, _. split; [apply (add_to_history_archivable _ h); assumption|].
  rewrite config_save_config. cbn [config set_config]. rewrite lookup_insert_eq.
  unfold entry_of. cbn [fst snd]. rewrite Ht. unfold history_entry.
  split; [reflexivity|]. repeat split.
Qed.

(** C4, as amended.  When a conversation is archived, the entry put in
    front of the history holds a title, the clock reading and the
    conversation.  The title is the content of the first message when that
    is a text of at most 30 code points, its first 30 code points followed
    by ["..."] when it is a longer text, and the default title when the
    first message has no key ["content"]. *)
Theorem history_title (self : ConfigManager.t) (h : list json)
    (first : gmap string json) (rest : list json) (now : string) :
  config self !! "history" = Some (JArr h) ->
  let session := JObj first :: rest in
  let titled (title : string) :=
    exists self' entry,
      add_to_history session now self = Ok self' /\
      config self' !! "history" = Some (JArr (JObj entry :: take 49 h)) /\
      entry !! "title" = Some (JStr title) /\
      entry !! "timestamp" = Some (JStr now) /\
      entry !! "messages" = Some (JArr session) in
  (forall content : list N,
     Forall code_point content ->
     first !! "content" = Some (JStr (Str.encode content)) ->
     (length content <= 30)%nat ->
     titled (Str.encode content)) /\
  (forall content : list N,
     Forall code_point content ->
     first !! "content" = Some (JStr (Str.encode content)) ->
     (30 < length content)%nat ->
     titled (Str.encode (take 30 content) +:+ "...")) /\
  (first !! "content" = None -> titled DEFAULT_TITLE).
Proof.
  intros Hh session titled.
  assert (forall title, title_of session = Ok title -> titled title) as Hgen.
  { intros title Ht. apply (add_to_history_titled self h session now title Hh eq_refl Ht). }
  split; [|split].
  - intros content Hcps Hc Hlen. apply Hgen.
    unfold title_of, session_title, session, Py.getitem0, Py.getitem.
    cbn [mbind result_bind]. rewrite Hc. cbn [mbind result_bind].
    rewrite take_encode, len_encode, take_ge by (assumption || lia).
    destruct (Nat.ltb_spec 30 (length content)); [lia|].
    now rewrite app_empty_r.
  - intros content Hcps Hc Hlen. apply Hgen.
    unfold title_of, session_title, session, Py.getitem0, Py.getitem.
    cbn [mbind result_bind]. rewrite Hc. cbn [mbind result_bind].
    rewrite take_encode, len_encode by assumption.
    destruct (Nat.ltb_spec 30 (length content)); [reflexivity | lia].
  - intros Hc. apply Hgen.
    unfold title_of, session_title, session, Py.getitem0, Py.getitem.
    cbn [mbind result_bind]. rewrite Hc. reflexivity.
Qed.

(** A content of 31 code points, 93 bytes in UTF-8, and a first message
    without content. *)
Definition long_content : list N := replicate 30 23545%N ++ [35805%N].
Definition long_message : gmap string json :=
  list_to_map [("role", JStr "user"); ("content", JStr (Str.encode long_content))].
Definition hello_message : gmap string json :=
  list_to_map [("role", JStr "user"); ("content", JStr (Str.encode [104; 101; 108; 108; 111]%N))].
Definition bare_message : gmap string json := list_to_map [("role", JStr "user")].

Lemma history_title_witness :
  config empty_store !! "history" = Some (JArr []) /\
  (Forall code_point [104; 101; 108; 108; 111]%N /\
   hello_message !! "content" = Some (JStr "hello") /\
   exists self' entry,
     add_to_history [JObj hello_message] "2025-07-18T10:00:00" empty_store = Ok self' /\
     config self' !! "history" = Some (JArr (JObj entry :: take 49 [])) /\
     entry !! "title" = Some (JStr "hello") /\
     entry !! "timestamp" = Some (JStr "2025-07-18T10:00:00") /\
     entry !! "messages" = Some (JArr [JObj hello_message])) /\
  (Forall code_point long_content /\
   (30 < length long_content)%nat /\
   exists self' entry,
     add_to_history [JObj long_message] "2025-07-18T10:00:00" empty_store = Ok self' /\
     config self' !! "history" = Some (JArr (JObj entry :: take 49 [])) /\
     entry !! "title" = Some (JStr (Str.encode (replicate 30 23545%N) +:+ "...")) /\
     entry !! "timestamp" = Some (JStr "2025-07-18T10:00:00") /\
     entry !! "messages" = Some (JArr [JObj long_message])) /\
  (bare_message !! "content" = None /\
   exists self' entry,
     add_to_history [JObj bare_message] "2025-07-18T10:00:00" empty_store = Ok self' /\
     config self' !! "history" = Some (JArr (JObj entry :: take 49 [])) /\
     entry !! "title" = Some (JStr DEFAULT_TITLE) /\
     entry !! "timestamp" = Some (JStr "2025-07-18T10:00:00") /\
     entry !! "messages" = Some (JArr [JObj bare_message])).
Proof.
  assert (Forall code_point [104; 101; 108; 108; 111]%N) as Hhello
    by (repeat constructor).
  assert (Forall code_point long_content) as Hlong
    by (apply Forall_app; split; [apply Forall_replicate|]; repeat constructor).
  assert (30 < length long_content)%nat as Hlen by (cbn; lia).
  assert (length [104; 101; 108; 108; 111]%N <= 30)%nat as Hshort by (cbn; lia).
  refine (conj eq_refl (conj (conj Hhello (conj eq_refl _))
                          (conj (conj Hlong (conj Hlen _)) (conj eq_refl _)))).
  - exact (proj1 (history_title empty_store [] hello_message [] "2025-07-18T10:00:00"
                    eq_refl) _ Hhello eq_refl Hshort).
  - exact (proj1 (proj2 (history_title empty_store [] long_message []
                           "2025-07-18T10:00:00" eq_refl)) _ Hlong eq_refl Hlen).
  - exact (proj2 (proj2 (history_title empty_store [] bare_message []
                           "2025-07-18T10:00:00" eq_refl)) eq_refl).
Defined.

(** C4 as stated fails when the content of the first message is there but
    is not a text: [None[:30]] raises [TypeError], the [except] clause of
    [add_to_history] names [IndexError] and [KeyError] only, and the call
    ends in the exception: no title, no entry. *)
Lemma history_title_not_for_null_content :
  let first : gmap string json :=
    list_to_map [("role", JStr "user"); ("content", JNull)] in
  first !! "content" = Some JNull /\
  title_of [JObj first] = Raise TypeError /\
  add_to_history [JObj first] "2025-07-18T10:00:00" empty_store = Raise TypeError.
Proof. evaluate. Qed.






End StoreClaims.

Section LoadClaims.

Import ConfigManager.

(** C8, as amended.  Loading a document (a dict) without the key [theme]
    gives [theme] its built-in default; a key of the document that is a key
    of the defaults keeps the value of the document, except that a dict is
    merged key by key into a default that is a dict (the keys of the
    document win, the others take the default); a key of the document that
    the defaults do not have is not loaded. *)
Theorem load_config_merges_defaults (doc : gmap string json) :
  doc !! "theme" = None ->
  let config := load_config (Document (JObj doc)) in
  config !! "theme" = Some (JStr "light") /\
  (forall k dflt v, (k, dflt) ∈ DEFAULT_CONFIG -> doc !! k = Some v ->
     (forall d l, dflt = JObj d -> v = JObj l ->
        exists m, config !! k = Some (JObj m) /\
                  forall k', m !! k' = match l !! k' with
                                       | Some x => Some x
                                       | None => d !! k'
                                       end) /\
     ((forall d, dflt <> JObj d) \/ (forall l, v <> JObj l) -> config !! k = Some v)) /\
  (forall k, k ∉ DEFAULT_CONFIG.*1 -> config !! k = None).
Proof.
  intros Htheme config. destruct (load_config_dict doc) as [Hin Hout].
  split; [|split].
  - subst config. rewrite (Hin "theme" (JStr "light")) by (unfold DEFAULT_CONFIG; set_solver).
    rewrite Htheme. reflexivity.
  - intros k dflt v Hmem Hk. subst config. rewrite (Hin k dflt Hmem), Hk. split.
    + intros d l -> ->. exists (l ∪ d). split; [reflexivity|].
      intros k'. rewrite lookup_union. destruct (l !! k'), (d !! k'); reflexivity.
    + intros [Hd | Hv]; destruct dflt, v; try reflexivity.
      * exfalso. eapply Hd. reflexivity.
      * exfalso. eapply Hv. reflexivity.
  - exact Hout.
Qed.

(** A file written by another version of the program. *)
Definition foreign_doc : gmap string json :=
  list_to_map [("language", JStr "en-US"); ("foo", JInt 1);
               ("user", JObj (list_to_map [("username", JStr "dsz")]))].

Lemma load_config_merges_defaults_witness :
  foreign_doc !! "theme" = None /\
  load_config (Document (JObj foreign_doc)) !! "theme" = Some (JStr "light").
Proof.
  split; [reflexivity|].
  exact (proj1 (load_config_merges_defaults foreign_doc eq_refl)).
Defined.

(** C8 as stated fails: the value that the file holds under a key unknown
    to the defaults is not preserved, [get] answers [None] for it. *)
Lemma load_config_drops_unknown_key :
  foreign_doc !! "theme" = None /\
  foreign_doc !! "foo" = Some (JInt 1) /\
  load_config (Document (JObj foreign_doc)) !! "foo" = None /\
  get (init (Document (JObj foreign_doc)) true) "foo" = Ok JNull.
Proof. evaluate. Qed.

(** A document that is not a dict leaves the defaults. *)
Example load_config_of_a_list :
  load_config (Document (JArr [JStr "theme"])) = DEFAULT_CONFIG_copy /\
  load_config (Document (JInt 5)) = DEFAULT_CONFIG_copy.
Proof. split; reflexivity. Qed.

(** The nested default: the name of the file, the rest of the defaults. *)
Example load_config_merges_user :
  load_config (Document (JObj foreign_doc)) !! "user"
  = Some (JObj (list_to_map [("username", JStr "dsz"); ("login_type", JStr "manual");
                             ("last_login", JStr "")])).
Proof. evaluate. Qed.

(** C9.  For every conversation, saving it as the current session on a
    writable file and building the store anew from that file gives the
    conversation back under [current_session]. *)
Theorem save_session_round_trip (self : ConfigManager.t) (C : list json) (w : bool) :
  writable self = true ->
  get (init (CONFIG_FILE (save_current_session C self)) w) "current_session"
  = Ok (JArr C).
Proof.
  intros Hw. unfold save_current_session, save_config. cbn [writable set_config].
  rewrite Hw. cbn [CONFIG_FILE config].
  unfold get, init. cbn [config].
  change (Str.split "." "current_session") with ["current_session"].
  destruct (load_config_dict (<["current_session" := JArr C]> (config self))) as [Hin _].
  specialize (Hin "current_session" (JArr [])).
  rewrite lookup_insert_eq in Hin. cbn [merged] in Hin.
  unfold get_loop, Py.contains, Py.getitem. cbn [mbind result_bind].
  change (config (set_config self ?c)) with c.
  rewrite Hin by (unfold DEFAULT_CONFIG; set_solver).
  rewrite bool_decide_eq_true_2 by eauto. reflexivity.
Qed.

Lemma save_session_round_trip_witness :
  writable empty_store = true /\
  get (init (CONFIG_FILE (save_current_session [hello] empty_store)) true)
      "current_session" = Ok (JArr [hello]).
Proof.
  split; [reflexivity|].
  exact (save_session_round_trip empty_store [hello] true eq_refl).
Defined.

End LoadClaims.

(** ** The rate limit of the transport *)

Section RateLimit.

Import DeepSeekClient.

Variable json_loads : string -> option json.
Variable post : request -> http_result.

Lemma Qlt_bool_iff (x y : Q) : Qlt_bool x y = true <-> (x < y)%Q.
Proof.
  unfold Qlt_bool. rewrite negb_true_iff. split.
  - intros Hb. apply Qnot_le_lt. intros Hle.
    apply Qle_bool_iff in Hle. congruence.
  - intros Hlt. destruct (Qle_bool y x) eqn:E; [|reflexivity].
    apply Qle_bool_iff in E. exfalso. exact (Qlt_not_le _ _ Hlt E).
Qed.

Lemma Qlt_bool_false (x y : Q) : Qlt_bool x y = false <-> (y <= x)%Q.
Proof.
  unfold Qlt_bool. rewrite negb_false_iff. apply Qle_bool_iff.
Qed.

(** The request [chat] sends for a call. *)
Definition payload_of (self : DeepSeekClient.t) (c : call) : request :=
  {| authorization := api_key self; req_model := model c;
     req_messages := messages c; req_temperature := (7 # 10)%Q;
     req_max_tokens := max_tokens c; req_stream := stream c |}.

(** The client once a call at [now] has passed the check. *)
Definition stamped (self : DeepSeekClient.t) (now : Q) : DeepSeekClient.t :=
  {| api_key := api_key self; last_request_time := now;
     min_request_interval := min_request_interval self |}.

(** Too early: the exception, no request, the client as it was. *)
Lemma chat_rejected (self : DeepSeekClient.t) (c : call) :
  (at_time c - last_request_time self < min_request_interval self)%Q ->
  chat_call json_loads post self c = (self, [], GRaise RateLimitExceeded).
Proof.
  intros Hlt. unfold chat_call, chat.
  apply Qlt_bool_iff in Hlt. rewrite Hlt. reflexivity.
Qed.

(** Late enough: the clock reading is recorded and the request goes out. *)
Lemma chat_accepted (self : DeepSeekClient.t) (c : call) :
  (min_request_interval self <= at_time c - last_request_time self)%Q ->
  (chat_call json_loads post self c).1 = (stamped self (at_time c), [payload_of self c]).
Proof.
  intros Hle. unfold chat_call, chat.
  apply Qlt_bool_false in Hle. rewrite Hle. reflexivity.
Qed.

(** C5, as amended.  When a call has passed the rate check, a call on the
    same client less than one second later raises the rate-limit
    exception, sends no request and leaves the client as it is. *)
Theorem rate_limited_after_accepted_call (self : DeepSeekClient.t) (c1 c2 : call) :
  min_request_interval self = 1%Q ->
  (1 <= at_time c1 - last_request_time self)%Q ->
  (at_time c2 - at_time c1 < 1)%Q ->
  let self1 := (chat_call json_loads post self c1).1.1 in
  chat_call json_loads post self1 c2 = (self1, [], GRaise RateLimitExceeded).
Proof.
  intros Hmin Hacc Hclose self1.
  assert (self1 = stamped self (at_time c1)) as ->.
  { subst self1. rewrite chat_accepted; [reflexivity|]. now rewrite Hmin. }
  apply chat_rejected. cbn [last_request_time min_request_interval stamped].
  now rewrite Hmin.
Qed.

(** C10.  Calls that the rate check rejects leave the client as it is, so
    that a call made at least the minimum interval after the last accepted
    one passes the check, whatever rejected calls came in between: its
    clock reading is recorded and its request goes out. *)
Theorem rejected_calls_do_not_postpone (self : DeepSeekClient.t)
    (rejected : list call) (c : call) :
  Forall (fun r => (at_time r - last_request_time self < min_request_interval self)%Q)
    rejected ->
  (min_request_interval self <= at_time c - last_request_time self)%Q ->
  after_calls json_loads post self rejected = self /\
  (chat_call json_loads post (after_calls json_loads post self rejected) c).1
  = (stamped self (at_time c), [payload_of self c]).
Proof.
  intros Hrej Hacc.
  assert (after_calls json_loads post self rejected = self) as Hsame.
  { induction Hrej as [|r rejected Hr _ IH]; [reflexivity|].
    cbn [after_calls]. rewrite (chat_rejected self r Hr). exact IH. }
  split; [exact Hsame|]. rewrite Hsame. now apply chat_accepted.
Qed.

End RateLimit.

Section RateLimitExamples.

Import DeepSeekClient.

(** A server that cannot be reached. *)
Definition unreachable : request -> http_result := fun _ => RequestFailed.
Definition no_json : string -> option json := fun _ => None.

Definition fresh_client : DeepSeekClient.t := init (JStr "sk-test").
Definition call_at (now : Q) : call :=
  {| at_time := now; messages := [hello]; model := JStr "deepseek-chat";
     max_tokens := 2048; stream := true |}.

Lemma rate_limited_after_accepted_call_witness :
  min_request_interval fresh_client = 1%Q /\
  (1 <= at_time (call_at 100) - last_request_time fresh_client)%Q /\
  (at_time (call_at (1006 # 10)) - at_time (call_at 100) < 1)%Q /\
  chat_call no_json unreachable (stamped fresh_client 100) (call_at (1006 # 10))
  = (stamped fresh_client 100, [], GRaise RateLimitExceeded).
Proof.
  assert (1 <= at_time (call_at 100) - last_request_time fresh_client)%Q as H1
    by (vm_compute; discriminate).
  assert (at_time (call_at (1006 # 10)) - at_time (call_at 100) < 1)%Q as H2
    by reflexivity.
  refine (conj eq_refl (conj H1 (conj H2 _))).
  exact (rate_limited_after_accepted_call no_json unreachable fresh_client
           (call_at 100) (call_at (1006 # 10)) eq_refl H1 H2).
Defined.

(** C5 as stated fails: of three calls at 100 s, 100.6 s and 101.2 s the
    second is rejected, and the third, 0.6 s after the second, passes the
    check: its request goes out. *)
Lemma close_pair_second_call_sends :
  let client2 := after_calls no_json unreachable fresh_client
                   [call_at 100; call_at (1006 # 10)] in
  (chat_call no_json unreachable fresh_client (call_at 100)).1.2
    = [payload_of fresh_client (call_at 100)] /\
  (at_time (call_at (1012 # 10)) - at_time (call_at (1006 # 10)) < 1)%Q /\
  chat_call no_json unreachable client2 (call_at (1012 # 10))
  = (stamped fresh_client (1012 # 10), [payload_of fresh_client (call_at (1012 # 10))],
     GRaise ConnectionError).
Proof. repeat split. Qed.

Lemma rejected_calls_do_not_postpone_witness :
  Forall (fun r => (at_time r - last_request_time (stamped fresh_client 100)
                    < min_request_interval (stamped fresh_client 100))%Q)
    [call_at (1006 # 10); call_at (1009 # 10)] /\
  (min_request_interval (stamped fresh_client 100)
   <= at_time (call_at 101) - last_request_time (stamped fresh_client 100))%Q /\
  (chat_call no_json unreachable
     (after_calls no_json unreachable (stamped fresh_client 100)
        [call_at (1006 # 10); call_at (1009 # 10)]) (call_at 101)).1
  = (stamped fresh_client 101, [payload_of fresh_client (call_at 101)]).
Proof.
  assert (Forall (fun r => (at_time r - last_request_time (stamped fresh_client 100)
                    < min_request_interval (stamped fresh_client 100))%Q)
    [call_at (1006 # 10); call_at (1009 # 10)]) as H1
    by (repeat constructor).
  assert (min_request_interval (stamped fresh_client 100)
   <= at_time (call_at 101) - last_request_time (stamped fresh_client 100))%Q as H2
    by (vm_compute; discriminate).
  refine (conj H1 (conj H2 _)).
  exact (proj2 (rejected_calls_do_not_postpone no_json unreachable
                  (stamped fresh_client 100) _ (call_at 101) H1 H2)).
Defined.

End RateLimitExamples.

(** ** The decoding of a streamed answer *)

Section Stream.

Import DeepSeekClient.

Variable json_loads : string -> option json.

(** The records of the wire contract.  [delta c] is a record whose payload
    decodes to [{"choices": [{"delta": {"content": c}}]}], possibly with
    more keys and more choices; [malformed] is a record whose payload
    [json.loads] refuses; [blank] is the empty line between two records. *)
Inductive record : Type :=
| delta (content : string)
| malformed
| blank.

Definition wire_delta (data : json) (content : string) : Prop :=
  exists m choice more d,
    data = JObj m /\
    m !! "choices" = Some (JArr (JObj choice :: more)) /\
    choice !! "delta" = Some (JObj d) /\
    d !! "content" = Some (JStr content).

(** [line] is the record [r] on the wire. *)
Definition carries (line : raw_line) (r : record) : Prop :=
  match r with
  | delta content =>
      exists payload data,
        line = Utf8 ("data: " +:+ payload) /\
        Str.strip payload <> "[DONE]" /\
        json_loads (Str.strip payload) = Some data /\
        wire_delta data content
  | malformed =>
      exists payload,
        line = Utf8 ("data: " +:+ payload) /\
        Str.strip payload <> "[DONE]" /\
        json_loads (Str.strip payload) = None
  | blank => line = Utf8 ""
  end.

Definition sentinel (line : raw_line) : Prop :=
  exists payload, line = Utf8 ("data: " +:+ payload) /\ Str.strip payload = "[DONE]".

(** In the words of the specification: the content deltas of the
    well-formed records that are not empty, in order. *)
Fixpoint expected_fragments (records : list record) : list string :=
  match records with
  | [] => []
  | delta content :: records' =>
      if String.eqb content "" then expected_fragments records'
      else content :: expected_fragments records'
  | _ :: records' => expected_fragments records'
  end.

Lemma delta_content_wire (data : json) (content : string) :
  wire_delta data content ->
  delta_content data = Ok (if String.eqb content "" then None else Some (JStr content)).
Proof.
  intros (m & choice & more & d & -> & Hm & Hc & Hd).
  unfold delta_content, Py.contains, Py.getitem. cbn [mbind result_bind].
  rewrite Hm. rewrite bool_decide_eq_true_2 by eauto.
  cbn [mbind result_bind Py.len length Nat.ltb Nat.leb Py.getitem0 Py.get].
  rewrite Hc. cbn [default from_option id Py.get mbind result_bind]. rewrite Hd.
  cbn [default from_option id mbind result_bind Py.truthy].
  destruct (String.eqb content ""); reflexivity.
Qed.

(** What [process_stream] does with a line [data: payload]. *)
Lemma process_stream_data (payload : string) (rest : list raw_line) (breaks : bool) :
  process_stream json_loads (Utf8 ("data: " +:+ payload) :: rest) breaks =
  if String.eqb (Str.strip payload) "[DONE]" then GDone
  else match json_loads (Str.strip payload) with
       | None => process_stream json_loads rest breaks
       | Some data =>
           match delta_content data with
           | Raise e => GRaise e
           | Ok None => process_stream json_loads rest breaks
           | Ok (Some content) => GYield content (process_stream json_loads rest breaks)
           end
       end.
Proof.
  cbn [process_stream]. rewrite replace_first_prefix.
  change ("data: " +:+ payload) with ("data:" +:+ (" " +:+ payload)).
  rewrite startswith_app. reflexivity.
Qed.

Lemma process_stream_blank (rest : list raw_line) (breaks : bool) :
  process_stream json_loads (Utf8 "" :: rest) breaks
  = process_stream json_loads rest breaks.
Proof. reflexivity. Qed.

(** The records in front of whatever follows them on the connection. *)
Lemma process_stream_records (lines : list raw_line) (records : list record)
    (tail : list raw_line) (breaks : bool) :
  Forall2 carries lines records ->
  process_stream json_loads (lines ++ tail) breaks
  = yields (JStr <$> expected_fragments records) (process_stream json_loads tail breaks).
Proof.
  induction 1 as [|line r lines records Hr _ IH]; [reflexivity|].
  destruct r as [content| |]; cbn [carries] in Hr.
  - destruct Hr as (p & data & -> & Hp & Hload & Hwire).
    cbn [app]. rewrite process_stream_data.
    apply String.eqb_neq in Hp. rewrite Hp, Hload, (delta_content_wire _ _ Hwire).
    cbn [expected_fragments]. destruct (String.eqb content ""); [exact IH|].
    rewrite fmap_cons. cbn [yields]. now rewrite IH.
  - destruct Hr as (p & -> & Hp & Hload).
    cbn [app]. rewrite process_stream_data.
    apply String.eqb_neq in Hp. rewrite Hp, Hload. exact IH.
  - subst line. cbn [app]. rewrite process_stream_blank. exact IH.
Qed.

(** The format of the API: records [data: payload], with a space after
    the colon.  For a streamed answer made of such records, each of
    them well formed or refused by [json.loads], with blank lines between,
    [process_stream] yields exactly the content deltas of the well-formed
    records that are not empty, in order, and then ends: at the first
    record [data: [DONE]], whatever follows it on the connection, or at the
    end of the lines when there is no such record.  It yields nothing for
    the sentinel, and a refused record neither yields nor raises. *)
Theorem process_stream_fragments (lines : list raw_line) (records : list record)
    (done : raw_line) (rest : list raw_line) (breaks : bool) :
  Forall2 carries lines records ->
  sentinel done ->
  process_stream json_loads (lines ++ done :: rest) breaks
  = yields (JStr <$> expected_fragments records) GDone /\
  process_stream json_loads lines false
  = yields (JStr <$> expected_fragments records) GDone.
Proof.
  intros Hlines (payload & -> & Hdone). split.
  - rewrite (process_stream_records _ records) by assumption.
    rewrite process_stream_data, Hdone. reflexivity.
  - rewrite <- (app_nil_r lines) at 1.
    rewrite (process_stream_records _ records) by assumption. reflexivity.
Qed.

(** What [process_stream] does with a line [data:payload], without the
    space: the test [startswith("data:")] lets it in, [replace("data: ",
    "", 1)] leaves the prefix where it is, and what reaches [json.loads]
    begins with the letter d. *)
Lemma process_stream_data_without_space (payload : string) (rest : list raw_line)
    (breaks : bool) :
  Str.startswith " " payload = false ->
  exists data_str,
    process_stream json_loads (Utf8 ("data:" +:+ payload) :: rest) breaks =
    match json_loads (String "d" data_str) with
    | None => process_stream json_loads rest breaks
    | Some data =>
        match delta_content data with
        | Raise e => GRaise e
        | Ok None => process_stream json_loads rest breaks
        | Ok (Some content) => GYield content (process_stream json_loads rest breaks)
        end
    end.
Proof.
  intros Hp. cbn [process_stream].
  rewrite startswith_app, replace_first_eq.
  change (Str.startswith "data: " ("data:" +:+ payload)) with (Str.startswith " " payload).
  rewrite Hp.
  change ("data:" +:+ payload) with (String "d" ("ata:" +:+ payload)).
  cbv iota.
  destruct (strip_d (Str.replace_first "data: " "" ("ata:" +:+ payload))) as [s' ->].
  exists s'. reflexivity.
Qed.

(** C6.  The claim speaks of records prefixed [data:], and so does the
    test of [process_stream]; but the prefix it removes is ["data: "], with
    a space.  A record whose colon is not followed by a space keeps its
    prefix on the way to [json.loads], which refuses every text that
    begins with the letter d: the record is skipped, well formed or not,
    and [data:[DONE]] does not end the stream, so that what follows it is
    still read. *)
Theorem process_stream_loses_record_without_space (payload : string)
    (rest : list raw_line) (breaks : bool) :
  (forall s, Str.startswith "d" s = true -> json_loads s = None) ->
  Str.startswith " " payload = false ->
  process_stream json_loads (Utf8 ("data:" +:+ payload) :: rest) breaks
  = process_stream json_loads rest breaks /\
  process_stream json_loads (Utf8 ("data:" +:+ payload) :: Utf8 "data:[DONE]" :: rest) breaks
  = process_stream json_loads rest breaks.
Proof.
  intros Hloads Hp.
  assert (forall p tail, Str.startswith " " p = false ->
            process_stream json_loads (Utf8 ("data:" +:+ p) :: tail) breaks
            = process_stream json_loads tail breaks) as Hskip.
  { intros p tail H. destruct (process_stream_data_without_space p tail breaks H) as [d ->].
    rewrite Hloads by reflexivity. reflexivity. }
  split.
  - apply Hskip, Hp.
  - rewrite (Hskip payload) by exact Hp. apply (Hskip "[DONE]"). reflexivity.
Qed.

(** The same lines on a connection that fails after them. *)
Lemma process_stream_broken (lines : list raw_line) (records : list record) :
  Forall2 carries lines records ->
  process_stream json_loads lines true
  = yields (JStr <$> expected_fragments records) (GRaise RequestException).
Proof.
  intros Hlines. rewrite <- (app_nil_r lines) at 1.
  rewrite (process_stream_records _ records) by assumption. reflexivity.
Qed.

Lemma gen_map_exn_yields (f : exn -> exn) (l : list json) (g : gen json) :
  gen_map_exn f (yields l g) = yields l (gen_map_exn f g).
Proof. induction l as [|a l IH]; [reflexivity|]. cbn. now rewrite IH. Qed.

(** An accepted streaming call on a connection that delivers records and
    then fails: [chat] yields their fragments and raises [ConnectionError]. *)
Lemma chat_stream_broken (post : request -> http_result) (self : DeepSeekClient.t)
    (c : call) (r : response) (records : list record) :
  (min_request_interval self <= at_time c - last_request_time self)%Q ->
  stream c = true ->
  post (payload_of self c) = Answer r ->
  iter_lines_breaks r = true ->
  Forall2 carries (iter_lines r) records ->
  (chat_call json_loads post self c).2
  = yields (JStr <$> expected_fragments records) (GRaise ConnectionError).
Proof.
  intros Hacc Hstream Hpost Hbreaks Hlines. unfold chat_call, chat.
  apply Qlt_bool_false in Hacc. rewrite Hacc. cbn [snd].
  fold (payload_of self c). rewrite Hpost, Hstream, Hbreaks.
  rewrite (process_stream_broken _ records Hlines), gen_map_exn_yields. reflexivity.
Qed.

End Stream.

Section StreamExamples.

Import DeepSeekClient.

(** A decoder given by the table of the texts it accepts. *)
Definition table_loads (table : list (string * json)) (s : string) : option json :=
  (list_to_map table : gmap string json) !! s.

Definition delta_json (content : string) : json :=
  JObj {[ "choices" := JArr [JObj {[ "delta" := JObj {[ "content" := JStr content ]} ]}] ]}.

Definition sample_loads : string -> option json :=
  table_loads [("{Hel}", delta_json "Hel"); ("{lo}", delta_json "lo");
               ("{ world}", delta_json " world"); ("{}", delta_json "");
               ("5", JInt 5)].

Definition sample_lines : list raw_line :=
  [Utf8 "data: {Hel}"; Utf8 ""; Utf8 "data: {lo}"; Utf8 "data: oops";
   Utf8 "data: {}"; Utf8 "data: { world}"].

Definition sample_records : list record :=
  [delta "Hel"; blank; delta "lo"; malformed; delta ""; delta " world"].

Lemma delta_json_wire (content : string) : wire_delta (delta_json content) content.
Proof.
  unfold wire_delta, delta_json. eexists _, _, _, _.
  split; [reflexivity|]. split; [apply lookup_singleton_eq|].
  split; apply lookup_singleton_eq.
Qed.

Lemma delta_line_carries (payload content : string) :
  Str.strip payload <> "[DONE]" ->
  sample_loads (Str.strip payload) = Some (delta_json content) ->
  carries sample_loads (Utf8 ("data: " +:+ payload)) (delta content).
Proof.
  intros Hp Hload. exists payload, (delta_json content).
  split; [reflexivity|]. split; [exact Hp|]. split; [exact Hload|].
  apply delta_json_wire.
Qed.

Lemma sample_lines_carry : Forall2 (carries sample_loads) sample_lines sample_records.
Proof.
  unfold sample_lines, sample_records.
  constructor; [apply (delta_line_carries "{Hel}"); [discriminate | reflexivity]|].
  constructor; [reflexivity|].
  constructor; [apply (delta_line_carries "{lo}"); [discriminate | reflexivity]|].
  constructor.
  { exists "oops". split; [reflexivity|]. split; [discriminate | reflexivity]. }
  constructor; [apply (delta_line_carries "{}"); [discriminate | reflexivity]|].
  constructor; [apply (delta_line_carries "{ world}"); [discriminate | reflexivity]|].
  constructor.
Qed.

Lemma process_stream_fragments_witness :
  Forall2 (carries sample_loads) sample_lines sample_records /\
  sentinel (Utf8 "data: [DONE]") /\
  process_stream sample_loads (sample_lines ++ Utf8 "data: [DONE]" :: [Utf8 "data: {lo}"]) false
  = yields [JStr "Hel"; JStr "lo"; JStr " world"] GDone.
Proof.
  assert (sentinel (Utf8 "data: [DONE]")) as Hdone.
  { exists "[DONE]". split; reflexivity. }
  refine (conj sample_lines_carry (conj Hdone _)).
  exact (proj1 (process_stream_fragments sample_loads sample_lines sample_records
                  (Utf8 "data: [DONE]") [Utf8 "data: {lo}"] false
                  sample_lines_carry Hdone)).
Defined.

(** The table has no text that begins with the letter d. *)
Lemma sample_loads_refuses_d (s : string) :
  Str.startswith "d" s = true -> sample_loads s = None.
Proof.
  intros Hd. destruct (sample_loads s) as [v|] eqn:E; [exfalso|reflexivity].
  unfold sample_loads, table_loads in E. apply elem_of_list_to_map_2 in E.
  repeat (apply elem_of_cons in E as [[= -> _]|E]; [discriminate Hd|]).
  inversion E.
Qed.

Lemma process_stream_loses_record_without_space_witness :
  (forall s, Str.startswith "d" s = true -> sample_loads s = None) /\
  Str.startswith " " "{Hel}" = false /\
  process_stream sample_loads [Utf8 "data:{Hel}"; Utf8 "data: {lo}"] false
  = GYield (JStr "lo") GDone /\
  process_stream sample_loads
    [Utf8 "data:{Hel}"; Utf8 "data:[DONE]"; Utf8 "data: {lo}"] false
  = GYield (JStr "lo") GDone.
Proof.
  refine (conj sample_loads_refuses_d (conj eq_refl _)).
  exact (process_stream_loses_record_without_space sample_loads "{Hel}"
           [Utf8 "data: {lo}"] false sample_loads_refuses_d eq_refl).
Defined.

(** The same lines by evaluation: a record whose prefix has no space after
    the colon passes the test [startswith("data:")], keeps its prefix in
    [replace("data: ", "", 1)] and goes to the decoder with it; the
    decoder refuses it and the record is skipped, sentinel included. *)
Example process_stream_prefix_without_space :
  process_stream sample_loads
    [Utf8 "data:{Hel}"; Utf8 "data:[DONE]"; Utf8 "data: {lo}"] false
  = GYield (JStr "lo") GDone.
Proof. vm_compute. reflexivity. Qed.

(** White space around the payload is removed before the comparison with
    the sentinel, the white space of Unicode included: here a no-break
    space and an em space follow [[DONE]], and the stream ends there. *)
Example process_stream_sentinel_with_white_space :
  process_stream sample_loads
    [Utf8 "data: {Hel}"; Utf8 ("data: [DONE]" +:+ Str.encode [160; 8195]%N);
     Utf8 "data: {lo}"] false
  = GYield (JStr "Hel") GDone.
Proof. vm_compute. reflexivity. Qed.

(** A payload that decodes to something else than a dict of the wire
    contract can leave [process_stream] by an exception that its [except]
    clause does not catch. *)
Example process_stream_decoded_number :
  process_stream sample_loads [Utf8 "data: 5"; Utf8 "data: {lo}"] false
  = GRaise TypeError.
Proof. vm_compute. reflexivity. Qed.

End StreamExamples.

(** ** The controller *)

Section ControllerFacts.

Import DeepSeekApp.
#[local] Open Scope list_scope.

Implicit Types (self : DeepSeekApp.t) (cm : ConfigManager.t).



Lemma writable_save_config cm :
  ConfigManager.writable (ConfigManager.save_config cm) = ConfigManager.writable cm.
Proof.
  unfold ConfigManager.save_config.
  destruct (ConfigManager.writable cm) eqn:E; [reflexivity | exact E].
Qed.

Lemma file_save_config cm :
  ConfigManager.writable cm = true ->
  ConfigManager.CONFIG_FILE (ConfigManager.save_config cm)
  = ConfigManager.Document (JObj (ConfigManager.config cm)).
Proof. intros H. unfold ConfigManager.save_config. rewrite H. reflexivity. Qed.

(** A key without a dot is looked up in the configuration, then in the
    defaults; [get] does not raise on it. *)
Lemma get_plain_key cm (key : string) :
  Str.split "." key = [key] ->
  ConfigManager.get cm key =
  Ok (match ConfigManager.config cm !! key with
      | Some v => v
      | None => default JNull (ConfigManager.DEFAULT_CONFIG_copy !! key)
      end).
Proof.
  intros Hsplit. unfold ConfigManager.get. rewrite Hsplit.
  unfold ConfigManager.get_loop, Py.contains, Py.getitem. cbn [mbind result_bind].
  case_bool_decide as Hk.
  - destruct Hk as [v ->]. reflexivity.
  - destruct (ConfigManager.config cm !! key) eqn:E; [|reflexivity].
    exfalso. apply Hk. eauto.
Qed.

(** What [send_message] leaves when it starts an exchange. *)
Lemma send_message_started self (text : string) self1 :
  client self <> None ->
  Str.strip text <> "" ->
  send_message text self = Ok self1 ->
  messages self1 = messages self ++ [message "user" (Str.strip text)] /\
  current_response self1 = "" /\
  streaming self1 = true /\
  send_button self1 = false /\ stop_button self1 = true /\
  critical self1 = critical self /\
  client self1 = client self /\
  ConfigManager.writable (config_manager self1)
  = ConfigManager.writable (config_manager self) /\
  exists api_thread,
    api_threads self1 = api_thread :: api_threads self /\
    ApiRequestThread.messages api_thread = messages self1 /\
    ApiRequestThread.stop_requested api_thread = false.
Proof.
  intros Hc Htext. unfold send_message.
  apply String.eqb_neq in Htext. rewrite Htext.
  destruct (client self) as [c|]; [|congruence].
  destruct (ConfigManager.get_user_info (config_manager self)) as [cm1 user_info] eqn:Hu.
  destruct (Py.get user_info "username" (JStr "用户")) as [name|]; [|discriminate].
  cbn [mbind result_bind].
  rewrite !get_plain_key by reflexivity. cbn [mbind result_bind].
  intros [= <-]. cbn.
  repeat split; try reflexivity.
  - unfold ConfigManager.save_current_session.
    rewrite writable_save_config. cbn.
    unfold ConfigManager.get_user_info in Hu.
    destruct (ConfigManager.config (config_manager self) !! "user");
      injection Hu as <- _; [reflexivity|].
    rewrite writable_save_config. reflexivity.
  - eexists. repeat split.
Qed.







Lemma truthy_nonempty (s : string) : s <> "" -> Py.truthy (JStr s) = true.
Proof. intros H. cbn. apply String.eqb_neq in H. now rewrite H. Qed.

(** [commit_response] with something in [current_response]: one message
    more, saved as the current session. *)
Lemma commit_response_nonempty self :
  current_response self <> "" ->
  messages (commit_response self)
  = messages self ++ [message "assistant" (current_response self)] /\
  config_manager (commit_response self)
  = ConfigManager.save_current_session
      (messages self ++ [message "assistant" (current_response self)])
      (config_manager self) /\
  streaming (commit_response self) = streaming self /\
  send_button (commit_response self) = send_button self /\
  stop_button (commit_response self) = stop_button self /\
  critical (commit_response self) = critical self /\
  current_response (commit_response self) = current_response self /\
  api_threads (commit_response self) = api_threads self.
Proof.
  intros H. unfold commit_response. rewrite (truthy_nonempty _ H).
  repeat split.
Qed.

Lemma session_saved (msgs : list json) cm :
  ConfigManager.config (ConfigManager.save_current_session msgs cm) !! "current_session"
  = Some (JArr msgs).
Proof.
  unfold ConfigManager.save_current_session. rewrite config_save_config.
  cbn. apply lookup_insert_eq.
Qed.

Lemma session_written (msgs : list json) cm :
  ConfigManager.writable cm = true ->
  ConfigManager.CONFIG_FILE (ConfigManager.save_current_session msgs cm)
  = ConfigManager.Document
      (JObj (ConfigManager.config (ConfigManager.save_current_session msgs cm))).
Proof.
  intros H. unfold ConfigManager.save_current_session.
  rewrite config_save_config. now rewrite file_save_config.
Qed.

End ControllerFacts.

(** ** Claims on the controller *)

Section ControllerClaims.

Import DeepSeekApp.
#[local] Open Scope list_scope.

Implicit Types (self : DeepSeekApp.t).


(** A store with a credential and a logged-in user, and the window that
    [initialize_main_app] builds on it. *)
Definition configured_store : ConfigManager.t :=
  ConfigManager.init
    (ConfigManager.Document
       (JObj (list_to_map
                [("api_key", JStr "sk-test");
                 ("user", JObj (list_to_map [("username", JStr "dsz")]))])))
    true.

Definition ready_window : DeepSeekApp.t :=
  {| config_manager := configured_store;
     client := Some (DeepSeekClient.init (JStr "sk-test"));
     streaming := false; current_response := ""; messages := [];
     send_button := true; stop_button := false; api_threads := []; critical := [] |}.

Example ready_window_initialized :
  initialize_main_app configured_store = Ok ready_window.
Proof. vm_compute. reflexivity. Qed.

(** The window once the user has sent [hi]. *)
Definition asked_window : DeepSeekApp.t :=
  match send_message "hi" ready_window with
  | Ok self1 => self1
  | Raise _ => ready_window
  end.

Lemma asked_window_sent : send_message "hi" ready_window = Ok asked_window.
Proof. vm_compute. reflexivity. Qed.



(** After [stop_streaming] has committed the text received so far, the
    [request_finished] of the stopped worker finds the same text in
    [current_response] and commits it again. *)
Lemma stop_then_finished self1 :
  streaming self1 = true ->
  api_threads self1 <> [] ->
  stop_button self1 = true ->
  current_response self1 <> "" ->
  exists self2,
    handle_all self1 [click_stop; from_worker ApiRequestThread.request_finished] = Ok self2 /\
    messages self2
    = messages self1 ++ [message "assistant" (current_response self1);
                         message "assistant" (current_response self1)].
Proof.
  intros Hs Ht Hb Hr. eexists. split; [reflexivity|].
  cbn [handle]. rewrite Hb. unfold stop_streaming. rewrite Hs.
  destruct (api_threads self1) as [|api_thread older]; [congruence|].
  unfold on_request_finished.
  match goal with |- context [back_to_idle (commit_response ?s)] => set (stopped := s) end.
  assert (current_response stopped <> "") as Hr1 by exact Hr.
  destruct (commit_response_nonempty stopped Hr1) as (Hm1 & _ & _ & _ & _ & _ & Hc1 & _).
  assert (current_response (back_to_idle (commit_response stopped)) <> "") as Hr2.
  { cbn. rewrite Hc1. exact Hr1. }
  destruct (commit_response_nonempty _ Hr2) as (Hm2 & _).
  rewrite Hm2. cbn [back_to_idle messages current_response]. rewrite Hm1, Hc1.
  subst stopped. cbn. rewrite <- app_assoc. reflexivity.
Qed.

(** The window after the events [evs], the window itself if a handler
    raises. *)
Definition after self (evs : list event) : DeepSeekApp.t :=
  match handle_all self evs with
  | Ok self' => self'
  | Raise _ => self
  end.

Definition stopped_exchange : list event :=
  [click_send "hi"; from_worker (ApiRequestThread.response_received "Hel");
   click_stop; from_worker ApiRequestThread.request_finished].

(** C1 fails on the stop path.  The user sends [hi], the worker forwards
    [Hel], the user stops, and the worker, which reads the flag before it
    forwards the next fragment, emits [request_finished]: the assistant
    message is in the conversation twice, and the current session was
    written three times, once with the user's message, once with one copy
    of the reply and once with two. *)
Theorem stop_commits_reply_twice :
  ApiRequestThread.forward true (fun i => (1 <=? i)%nat) 0
    (yields (JStr <$> ["Hel"; "lo"; " world"]) GDone)
  = [ApiRequestThread.response_received "Hel"; ApiRequestThread.request_finished] /\
  handle_all ready_window stopped_exchange
  = Ok (after ready_window stopped_exchange) /\
  messages (after ready_window stopped_exchange)
  = [message "user" "hi"; message "assistant" "Hel"; message "assistant" "Hel"] /\
  ((fun doc => doc !! "current_session")
     <$> ConfigManager.written (config_manager (after ready_window stopped_exchange)))
  = [Some (JArr [message "user" "hi"]);
     Some (JArr [message "user" "hi"; message "assistant" "Hel"]);
     Some (JArr [message "user" "hi"; message "assistant" "Hel";
                 message "assistant" "Hel"])].
Proof. evaluate. Qed.

Definition completed_exchange : list event :=
  click_send "hi" ::
  (from_worker <$> ApiRequestThread.forward true (fun _ => false) 0
                     (yields (JStr <$> ["Hel"; "lo"; " world"]) GDone)).

(** An exchange that runs to its end commits once. *)
Example completion_commits_reply_once :
  handle_all ready_window completed_exchange
  = Ok (after ready_window completed_exchange) /\
  messages (after ready_window completed_exchange)
  = [message "user" "hi"; message "assistant" "Hello world"].
Proof. evaluate. Qed.

(** Whatever the state of the window, [send_message] on a text that is not
    blank, with a client, starts a thread. *)
Lemma send_message_starts_thread self (text : string) :
  client self <> None ->
  Str.strip text <> "" ->
  (forall v, ConfigManager.config (config_manager self) !! "user" = Some v ->
             exists u, v = JObj u) ->
  exists self1,
    send_message text self = Ok self1 /\
    length (api_threads self1) = S (length (api_threads self)).
Proof.
  intros Hc Htext Huser.
  assert (exists self1, send_message text self = Ok self1) as [self1 Hsend].
  { unfold send_message. apply String.eqb_neq in Htext. rewrite Htext.
    destruct (client self); [|congruence].
    unfold ConfigManager.get_user_info.
    destruct (ConfigManager.config (config_manager self) !! "user") as [v|] eqn:E.
    - destruct (Huser v eq_refl) as [u ->]. cbn [Py.get mbind result_bind].
      rewrite !get_plain_key by reflexivity. cbn [mbind result_bind]. eauto.
    - cbn [Py.get mbind result_bind].
      rewrite !get_plain_key by reflexivity. cbn [mbind result_bind]. eauto. }
  exists self1. split; [exact Hsend|].
  destruct (send_message_started self text self1 Hc Htext Hsend)
    as (_ & _ & _ & _ & _ & _ & _ & _ & api_thread & -> & _).
  reflexivity.
Qed.

(** C2 fails on the Return key.  While the reply to [a] is streaming the
    send button is disabled, but [returnPressed] is connected to
    [send_message], which does not look at [streaming]: Return on [b]
    starts a second thread while the first is still running (neither has
    been asked to stop, no [request_finished] has arrived). *)
Theorem return_key_starts_second_worker :
  let self1 := after ready_window [return_pressed "a"] in
  let self2 := after self1 [return_pressed "b"] in
  handle ready_window (return_pressed "a") = Ok self1 /\
  streaming self1 = true /\ send_button self1 = false /\
  handle self1 (click_send "b") = Ok self1 /\
  handle self1 (return_pressed "b") = Ok self2 /\
  streaming self2 = true /\
  (ApiRequestThread.stop_requested <$> api_threads self2) = [false; false] /\
  messages self2 = [message "user" "a"; message "user" "b"].
Proof. evaluate. Qed.

End ControllerClaims.

(** * The rest of the store *)

(** ** ConfigManager.set *)

Module Settings.

#[local] Open Scope list_scope.

(** [x[k] = v] for a string [k]: only a dict takes it. *)
Definition setitem (x : json) (k : string) (v : json) : result json :=
  match x with
  | JObj m => Ok (JObj (<[k := v]> m))
  | _ => Raise TypeError
  end.

(** The loop of [set] over [keys[:-1]] and the assignment to [keys[-1]],
    from [current] down; the dicts are updated in place, the result is
    [current] once that is done. *)
Fixpoint set_path (current : json) (keys : list string) (value : json)
    : result json :=
  match keys with
  | [] => Raise IndexError
  | k :: keys' =>
      match keys' with
      | [] => setitem current k value
      | _ :: _ =>
          b ← Py.contains k current;
          current1 ← (if (b : bool) then Ok current else setitem current k (JObj ∅));
          child ← Py.getitem current1 k;
          child' ← set_path child keys' value;
          setitem current1 k child'
      end
  end.

Definition set (key : string) (value : json) (self : ConfigManager.t)
    : result ConfigManager.t :=
  current ← set_path (JObj (ConfigManager.config self)) (Str.split "." key) value;
  match current with
  | JObj config' => Ok (ConfigManager.save_config (ConfigManager.set_config self config'))
  | _ => Raise TypeError
  end.

(** [SettingsWindow.save_settings] with the contents of its six widgets. *)
Definition save_settings (api_key language theme model : string) (stream : bool)
    (update_interval : Z) (self : ConfigManager.t) : result ConfigManager.t :=
  s1 ← set "api_key" (JStr api_key) self;
  s2 ← set "language" (JStr language) s1;
  s3 ← set "theme" (JStr theme) s2;
  s4 ← set "model" (JStr model) s3;
  s5 ← set "stream" (JBool stream) s4;
  set "update_interval" (JInt update_interval) s5.

End Settings.

Section SettingsFacts.

Import ConfigManager Settings.
#[local] Open Scope list_scope.

Implicit Types (self : ConfigManager.t) (key : string) (value current : json).

Lemma split_nonempty (c : ascii) (s : string) : Str.split c s <> [].
Proof.
  induction s as [|a s IH]; cbn; [discriminate|].
  destruct (Ascii.eqb a c); [discriminate|].
  destruct (Str.split c s); [congruence | discriminate].
Qed.

Lemma setitem_Ok current k value c' :
  setitem current k value = Ok c' ->
  exists m, current = JObj m /\ c' = JObj (<[k := value]> m).
Proof.
  destruct current; cbn; intros H; try discriminate H.
  injection H as <-. eauto.
Qed.

Lemma set_path_cons2 current k k2 keys value :
  set_path current (k :: k2 :: keys) value =
  (b ← Py.contains k current;
   current1 ← (if (b : bool) then Ok current else setitem current k (JObj ∅));
   child ← Py.getitem current1 k;
   child' ← set_path child (k2 :: keys) value;
   setitem current1 k child').
Proof. reflexivity. Qed.

(** What [set_path] returns is a dict that holds, under the first key, a
    value in which the rest of the path leads to [value]; the other keys of
    [current] are as they were. *)
Lemma set_path_Ok keys : forall current value c',
  set_path current keys value = Ok c' ->
  exists k keys' m m',
    keys = k :: keys' /\ current = JObj m /\ c' = JObj m' /\
    (forall k', k' <> k -> m' !! k' = m !! k') /\
    forall key, get_loop key c' keys = Ok value.
Proof.
  induction keys as [|k keys IH]; intros current value c' Hset; [discriminate|].
  destruct keys as [|k2 keys].
  - cbn in Hset. apply setitem_Ok in Hset as (m & -> & ->).
    exists k, [], m, (<[k := value]> m). repeat split.
    + intros k' Hne. now rewrite lookup_insert_ne.
    + intros key. cbn [get_loop Py.contains Py.getitem mbind result_bind].
      rewrite lookup_insert_eq, bool_decide_eq_true_2 by eauto. reflexivity.
  - rewrite set_path_cons2 in Hset.
    destruct (Py.contains k current) as [b|] eqn:Hb; [|discriminate].
    cbn [mbind result_bind] in Hset.
    assert (exists m m1, current = JObj m /\
              (if b then Ok current else setitem current k (JObj ∅)) = Ok (JObj m1) /\
              (forall k', k' <> k -> m1 !! k' = m !! k')) as (m & m1 & -> & Hc1 & Hm1).
    { destruct b; cbn [mbind result_bind] in Hset.
      - destruct (Py.getitem current k) as [child|] eqn:Hg; [|discriminate Hset].
        destruct current; try discriminate Hg. eauto.
      - destruct (setitem current k (JObj ∅)) as [c1|] eqn:Hs; [|discriminate Hset].
        apply setitem_Ok in Hs as (m & -> & ->). exists m, (<[k := JObj ∅]> m).
        repeat split. intros k' Hne. now rewrite lookup_insert_ne. }
    rewrite Hc1 in Hset. cbn [mbind result_bind] in Hset.
    destruct (Py.getitem (JObj m1) k) as [child|] eqn:Hg; [|discriminate].
    cbn [mbind result_bind] in Hset.
    destruct (set_path child (k2 :: keys) value) as [child'|] eqn:Hrec; [|discriminate].
    cbn [mbind result_bind setitem] in Hset. injection Hset as <-.
    destruct (IH _ _ _ Hrec) as (_ & _ & _ & _ & _ & _ & _ & _ & Hget).
    exists k, (k2 :: keys), m, (<[k := child']> m1). repeat split.
    + intros k' Hne. rewrite lookup_insert_ne by congruence. now apply Hm1.
    + intros key. cbn [get_loop Py.contains Py.getitem mbind result_bind].
      rewrite lookup_insert_eq, bool_decide_eq_true_2 by eauto.
      cbn [mbind result_bind]. apply Hget.
Qed.

(** [set] then [get]: a value that [set] has stored under a key, dotted or
    not, is what [get] returns for that key, and [set] has written the
    configuration to the file when the file can be written. *)
Theorem set_get self key value self' :
  set key value self = Ok self' ->
  get self' key = Ok value /\
  (writable self = true -> CONFIG_FILE self' = Document (JObj (config self'))).
Proof.
  unfold set. intros Hset.
  destruct (set_path (JObj (config self)) (Str.split "." key) value) as [c'|] eqn:Hp;
    [|discriminate].
  destruct (set_path_Ok _ _ _ _ Hp) as (k & keys' & m & m' & Hk & _ & -> & _ & Hget).
  cbn [mbind result_bind] in Hset. injection Hset as <-. split.
  - unfold get. rewrite config_save_config. cbn [config set_config]. apply Hget.
  - intros Hw. rewrite config_save_config. now apply file_save_config.
Qed.

Lemma set_get_witness :
  set "user.nickname" (JStr "dsz") empty_store
  = Ok (match set "user.nickname" (JStr "dsz") empty_store with
        | Ok s => s | Raise _ => empty_store end) /\
  get (match set "user.nickname" (JStr "dsz") empty_store with
       | Ok s => s | Raise _ => empty_store end) "user.nickname" = Ok (JStr "dsz").
Proof.
  assert (set "user.nickname" (JStr "dsz") empty_store
          = Ok (match set "user.nickname" (JStr "dsz") empty_store with
                | Ok s => s | Raise _ => empty_store end)) as H
    by (vm_compute; reflexivity).
  split; [exact H|].
  exact (proj1 (set_get empty_store "user.nickname" (JStr "dsz") _ H)).
Defined.


(** [set] leaves the values under the other top-level keys alone. *)
Theorem set_other_keys self key value self' k keys' :
  set key value self = Ok self' ->
  Str.split "." key = k :: keys' ->
  forall k', k' <> k -> config self' !! k' = config self !! k'.
Proof.
  unfold set. intros Hset Hsplit k' Hne.
  destruct (set_path (JObj (config self)) (Str.split "." key) value) as [c'|] eqn:Hp;
    [|discriminate].
  destruct (set_path_Ok _ _ _ _ Hp) as (k0 & keys0 & m & m' & Hk & Hm & -> & Hother & _).
  cbn [mbind result_bind] in Hset. injection Hset as <-.
  rewrite config_save_config. cbn [config set_config].
  injection Hm as <-. rewrite Hsplit in Hk. injection Hk as <- _.
  now apply Hother.
Qed.

Lemma set_other_keys_witness :
  config (match set "user.nickname" (JStr "dsz") empty_store with
          | Ok s => s | Raise _ => empty_store end) !! "theme"
  = config empty_store !! "theme".
Proof.
  assert (set "user.nickname" (JStr "dsz") empty_store
          = Ok (match set "user.nickname" (JStr "dsz") empty_store with
                | Ok s => s | Raise _ => empty_store end)) as H
    by (vm_compute; reflexivity).
  assert ("theme" <> "user") as Hne by discriminate.
  exact (set_other_keys empty_store "user.nickname" (JStr "dsz") _ "user" ["nickname"]
           H eq_refl "theme" Hne).
Defined.

Lemma set_path_not_dict keys : forall current value,
  keys <> [] -> (forall m, current <> JObj m) ->
  set_path current keys value = Raise TypeError.
Proof.
  destruct keys as [|k [|k2 keys]]; intros current value Hne Hnd; [congruence| |].
  - destruct current; try reflexivity. exfalso. eapply Hnd. reflexivity.
  - rewrite set_path_cons2.
    destruct current; try reflexivity; cbn [Py.contains mbind result_bind].
    + destruct (Str.contains k s); reflexivity.
    + destruct (existsb (Py.is_str k) l); reflexivity.
    + exfalso. eapply Hnd. reflexivity.
Qed.

(** A dotted key whose first segment names a value that is not a dict:
    [set] raises [TypeError]. *)
Theorem set_through_scalar self key value k k2 keys v :
  Str.split "." key = k :: k2 :: keys ->
  config self !! k = Some v ->
  (forall m, v <> JObj m) ->
  set key value self = Raise TypeError.
Proof.
  intros Hsplit Hk Hv. unfold set. rewrite Hsplit, set_path_cons2.
  cbn [Py.contains Py.getitem mbind result_bind].
  rewrite bool_decide_eq_true_2 by eauto. cbn [Py.getitem mbind result_bind].
  rewrite Hk. cbn [mbind result_bind].
  rewrite set_path_not_dict by (congruence || assumption).
  reflexivity.
Qed.

Lemma set_through_scalar_witness :
  Str.split "." "theme.color" = ["theme"; "color"] /\
  config empty_store !! "theme" = Some (JStr "light") /\
  set "theme.color" (JStr "red") empty_store = Raise TypeError.
Proof.
  refine (conj eq_refl (conj eq_refl _)).
  refine (set_through_scalar empty_store "theme.color" (JStr "red") "theme" "color" []
            (JStr "light") eq_refl eq_refl _).
  intros m; discriminate.
Defined.

(** The keys of the defaults have no dot. *)
Lemma default_key_plain key v :
  DEFAULT_CONFIG_copy !! key = Some v -> Str.split "." key = [key].
Proof.
  intros H. apply elem_of_list_to_map_2 in H. unfold DEFAULT_CONFIG in H.
  repeat (apply elem_of_cons in H as [H|H]; [injection H as -> _; reflexivity|]).
  inversion H.
Qed.

(** One turn of the loop of [get] on a dict. *)
Lemma get_loop_dict key (m : gmap string json) k keys :
  get_loop key (JObj m) (k :: keys) =
  match m !! k with
  | Some v => get_loop key v keys
  | None => Ok (default JNull (DEFAULT_CONFIG_copy !! key))
  end.
Proof.
  cbn [get_loop Py.contains Py.getitem mbind result_bind].
  case_bool_decide as Hk.
  - destruct Hk as [v ->]. reflexivity.
  - destruct (m !! k) eqn:E; [exfalso; apply Hk; eauto | reflexivity].
Qed.

(** [get] on a key with one dot: the value under the second segment in
    the dict under the first, and [None] when either is missing; the
    defaults are looked up under the whole key and have no such key. *)
Theorem get_dotted self key k1 k2 :
  Str.split "." key = [k1; k2] ->
  (forall m, config self !! k1 = Some (JObj m) ->
             get self key = Ok (default JNull (m !! k2))) /\
  (config self !! k1 = None -> get self key = Ok JNull).
Proof.
  intros Hsplit.
  assert (DEFAULT_CONFIG_copy !! key = None) as Hnone.
  { destruct (DEFAULT_CONFIG_copy !! key) as [v|] eqn:E; [|reflexivity].
    apply default_key_plain in E. rewrite E in Hsplit. discriminate. }
  unfold get. rewrite Hsplit. split.
  - intros m Hm. rewrite get_loop_dict, Hm, get_loop_dict.
    destruct (m !! k2); [reflexivity|]. rewrite Hnone. reflexivity.
  - intros Hk. rewrite get_loop_dict, Hk, Hnone. reflexivity.
Qed.

Lemma get_dotted_witness :
  Str.split "." "user.avatar" = ["user"; "avatar"] /\
  config empty_store !! "user" = Some (JObj DEFAULT_USER) /\
  get empty_store "user.avatar" = Ok JNull.
Proof.
  refine (conj eq_refl (conj eq_refl _)).
  exact (proj1 (get_dotted empty_store "user.avatar" "user" "avatar" eq_refl)
           DEFAULT_USER eq_refl).
Defined.


(** [set] on a key without a dot never raises. *)
Lemma set_plain self key value :
  Str.split "." key = [key] ->
  set key value self
  = Ok (save_config (set_config self (<[key := value]> (config self)))).
Proof. intros H. unfold set. rewrite H. reflexivity. Qed.

Lemma written_save_config self :
  writable self = true -> written (save_config self) = written self ++ [config self].
Proof. intros H. unfold save_config. rewrite H. reflexivity. Qed.

Ltac still_writable :=
  repeat first [rewrite writable_save_config | progress cbn [writable set_config]];
  assumption.

(** [save_settings] does not raise; afterwards [get] returns the six
    values of the dialog, the other keys of the configuration are as they
    were, and on a writable file the configuration was written six times,
    the file holding the last one. *)
Theorem save_settings_stores (api_key language theme model : string) (stream : bool)
    (update_interval : Z) self :
  exists self',
    save_settings api_key language theme model stream update_interval self = Ok self' /\
    get self' "api_key" = Ok (JStr api_key) /\
    get self' "language" = Ok (JStr language) /\
    get self' "theme" = Ok (JStr theme) /\
    get self' "model" = Ok (JStr model) /\
    get self' "stream" = Ok (JBool stream) /\
    get self' "update_interval" = Ok (JInt update_interval) /\
    (forall k, k ∉ ["api_key"; "language"; "theme"; "model"; "stream"; "update_interval"] ->
               config self' !! k = config self !! k) /\
    (writable self = true ->
     length (written self') = (length (written self) + 6)%nat /\
     CONFIG_FILE self' = Document (JObj (config self'))).
Proof.
  unfold save_settings. rewrite !set_plain by reflexivity.
  cbn [mbind result_bind]. rewrite !set_plain by reflexivity.
  eexists. split; [reflexivity|].
  rewrite !get_plain_key by reflexivity.
  repeat (rewrite config_save_config; cbn [config set_config]).
  repeat split.
  - now rewrite lookup_insert_ne, lookup_insert_ne, lookup_insert_ne, lookup_insert_ne,
      lookup_insert_ne, lookup_insert_eq.
  - now rewrite lookup_insert_ne, lookup_insert_ne, lookup_insert_ne, lookup_insert_ne,
      lookup_insert_eq.
  - now rewrite lookup_insert_ne, lookup_insert_ne, lookup_insert_ne, lookup_insert_eq.
  - now rewrite lookup_insert_ne, lookup_insert_ne, lookup_insert_eq.
  - now rewrite lookup_insert_ne, lookup_insert_eq.
  - now rewrite lookup_insert_eq.
  - intros k Hk. rewrite !lookup_insert_ne; [reflexivity|..]; intros <-; apply Hk; set_solver.
  - repeat (rewrite written_save_config; [cbn [written set_config]|still_writable]).
    rewrite !length_app. cbn [length]. lia.
  - rewrite file_save_config by still_writable. reflexivity.
Qed.

(** The loop of [load_config] only stores under keys it visits. *)
Lemma merge_keys_present (loaded : json) keys : forall config0 config',
  merge_keys loaded config0 keys = Ok config' ->
  (forall k, k ∈ keys.*1 -> is_Some (config0 !! k)) ->
  forall k, is_Some (config' !! k) <-> is_Some (config0 !! k).
Proof.
  induction keys as [|[key d] keys IH]; intros config0 config' Hrun Hin k.
  - injection Hrun as <-. reflexivity.
  - cbn [merge_keys] in Hrun.
    destruct (merge_key loaded config0 (key, d)) as [c1|] eqn:Hstep; [|discriminate].
    cbn [mbind result_bind] in Hrun.
    assert (forall k, is_Some (c1 !! k) <-> is_Some (config0 !! k)) as H1.
    { unfold merge_key in Hstep.
      destruct (Py.contains key loaded) as [[|]|]; cbn [mbind result_bind] in Hstep;
        try discriminate.
      - destruct (Py.getitem loaded key); cbn [mbind result_bind] in Hstep;
          [|discriminate].
        injection Hstep as <-. intros k0.
        destruct (decide (k0 = key)) as [->|Hne].
        + rewrite lookup_insert_eq. split; [intros _|eauto].
          apply Hin. cbn. apply elem_of_cons. now left.
        + now rewrite lookup_insert_ne.
      - injection Hstep as <-. reflexivity. }
    rewrite (IH c1 config' Hrun); [apply H1|].
    intros k0 Hk0. apply H1, Hin. cbn. apply elem_of_cons. now right.
Qed.

(** Whatever the file holds, the configuration that [load_config] builds
    has exactly the keys of the defaults. *)
Theorem load_config_keys (f : file) (k : string) :
  is_Some (load_config f !! k) <-> k ∈ DEFAULT_CONFIG.*1.
Proof.
  assert (is_Some (DEFAULT_CONFIG_copy !! k) <-> k ∈ DEFAULT_CONFIG.*1) as Hd.
  { split.
    - intros [v Hv]. apply elem_of_list_to_map_2 in Hv.
      apply list_elem_of_fmap. exists (k, v). auto.
    - intros Hk. destruct (DEFAULT_CONFIG_copy !! k) eqn:E; [eauto|].
      apply not_elem_of_list_to_map_2 in E. contradiction. }
  destruct f as [| |loaded]; cbn [load_config]; try exact Hd.
  destruct (merge_keys loaded DEFAULT_CONFIG_copy DEFAULT_CONFIG) as [c|] eqn:E;
    [|exact Hd].
  rewrite (merge_keys_present loaded DEFAULT_CONFIG DEFAULT_CONFIG_copy c E); [exact Hd|].
  intros k0 Hk0. destruct (DEFAULT_CONFIG_copy !! k0) eqn:E0; [eauto|].
  apply not_elem_of_list_to_map_2 in E0. contradiction.
Qed.

Lemma merge_keys_not_dict (loaded : json) keys : forall config0,
  (forall m, loaded <> JObj m) ->
  merge_keys loaded config0 keys = Ok config0 \/
  exists e, merge_keys loaded config0 keys = Raise e.
Proof.
  induction keys as [|[key d] keys IH]; intros config0 Hnd; [left; reflexivity|].
  cbn [merge_keys merge_key].
  destruct loaded; cbn [Py.contains mbind result_bind];
    try (right; eexists; reflexivity).
  - destruct (Str.contains key s); cbn [Py.getitem mbind result_bind];
      [right; eexists; reflexivity | apply (IH config0 Hnd)].
  - destruct (existsb (Py.is_str key) l); cbn [Py.getitem mbind result_bind];
      [right; eexists; reflexivity | apply (IH config0 Hnd)].
  - exfalso. eapply Hnd. reflexivity.
Qed.

(** A file whose document is not a dict (a list, a string, a number)
    counts for nothing: the configuration is the defaults. *)
Theorem load_config_not_a_dict (loaded : json) :
  (forall m, loaded <> JObj m) ->
  load_config (Document loaded) = DEFAULT_CONFIG_copy.
Proof.
  intros Hnd. cbn [load_config].
  destruct (merge_keys_not_dict loaded DEFAULT_CONFIG DEFAULT_CONFIG_copy Hnd)
    as [-> | [e ->]]; reflexivity.
Qed.

Lemma load_config_not_a_dict_witness :
  load_config (Document (JArr [JStr "theme"; JStr "dark"])) = DEFAULT_CONFIG_copy.
Proof.
  refine (load_config_not_a_dict (JArr [JStr "theme"; JStr "dark"]) _).
  intros m; discriminate.
Defined.

End SettingsFacts.

(** ** HistoryWindow: the archive *)

Module HistoryWindow.

#[local] Open Scope list_scope.

(** [x[i]] for an index [i] that is not negative. *)
Definition getindex (x : json) (i : nat) : result json :=
  match x with
  | JArr l => match l !! i with
              | Some v => Ok v
              | None => Raise IndexError
              end
  | JStr s => match Str.skip i s with
              | EmptyString => Raise IndexError
              | s' => Ok (JStr (Str.take 1 s'))
              end
  | JObj _ => Raise KeyError
  | _ => Raise TypeError
  end.

(** [load_history] with the row [index] of the selected item: the list it
    emits in [history_selected], if it emits.  The signal carries a [list]. *)
Definition load_history (index : nat) (cm : ConfigManager.t)
    : result (option (list json)) :=
  history ← ConfigManager.get cm "history";
  n ← Py.len history;
  if (index <? n)%nat then
    entry ← getindex history index;
    messages ← Py.getitem entry "messages";
    match messages with
    | JArr l => Ok (Some l)
    | _ => Raise TypeError
    end
  else Ok None.

(** [delete_history] with the row [index] of the selected item. *)
Definition delete_history (index : nat) (cm : ConfigManager.t)
    : result ConfigManager.t :=
  history ← ConfigManager.get cm "history";
  n ← Py.len history;
  if (index <? n)%nat then
    match history with
    | JArr h =>
        Ok (ConfigManager.save_config
              (ConfigManager.set_config cm
                 (<["history" := JArr (delete index h)]> (ConfigManager.config cm))))
    | JObj _ => Raise KeyError
    | _ => Raise TypeError
    end
  else Ok cm.

End HistoryWindow.

Section ArchiveFacts.

Import ConfigManager HistoryWindow.
#[local] Open Scope list_scope.

Implicit Types (self : ConfigManager.t) (h session : list json).

Lemma get_history self h :
  config self !! "history" = Some (JArr h) -> get self "history" = Ok (JArr h).
Proof. intros H. rewrite get_plain_key by reflexivity. now rewrite H. Qed.

(** Archive, then load the first row: the conversation comes back as it
    was archived. *)
Theorem archived_session_loads_back self h session (now : string) :
  config self !! "history" = Some (JArr h) ->
  archivable session = true ->
  exists self',
    add_to_history session now self = Ok self' /\
    load_history 0 self' = Ok (Some session).
Proof.
  intros Hh Ha. eexists. split; [apply (add_to_history_archivable _ h); assumption|].
  unfold load_history. rewrite (get_history _ (take 50 (entry_of (session, now) :: h))).
  - reflexivity.
  - rewrite config_save_config. cbn [config set_config]. apply lookup_insert_eq.
Qed.

Lemma archived_session_loads_back_witness :
  config empty_store !! "history" = Some (JArr []) /\
  archivable [hello] = true /\
  exists self',
    add_to_history [hello] "2025-07-18T10:00:00" empty_store = Ok self' /\
    load_history 0 self' = Ok (Some [hello]).
Proof.
  refine (conj eq_refl (conj eq_refl _)).
  exact (archived_session_loads_back empty_store [] [hello] "2025-07-18T10:00:00"
           eq_refl eq_refl).
Defined.

(** Archive, then delete the first row: the history is what it was, cut
    to its 49 newest entries: at 50 entries the oldest one is lost to the
    entry that was archived and deleted. *)
Theorem archive_then_delete self h session (now : string) :
  config self !! "history" = Some (JArr h) ->
  archivable session = true ->
  exists self1 self2,
    add_to_history session now self = Ok self1 /\
    delete_history 0 self1 = Ok self2 /\
    config self2 !! "history" = Some (JArr (take 49 h)).
Proof.
  intros Hh Ha. eexists _, _.
  split; [apply (add_to_history_archivable _ h); assumption|].
  unfold delete_history.
  rewrite (get_history _ (take 50 (entry_of (session, now) :: h)))
    by (rewrite config_save_config; cbn [config set_config]; apply lookup_insert_eq).
  cbn [mbind result_bind Py.len take length Nat.ltb Nat.leb].
  split; [reflexivity|].
  rewrite config_save_config. cbn [config set_config].
  rewrite lookup_insert_eq. reflexivity.
Qed.

Lemma archive_then_delete_witness :
  config empty_store !! "history" = Some (JArr []) /\
  archivable [hello] = true /\
  exists self1 self2,
    add_to_history [hello] "2025-07-18T10:00:00" empty_store = Ok self1 /\
    delete_history 0 self1 = Ok self2 /\
    config self2 !! "history" = Some (JArr []).
Proof.
  refine (conj eq_refl (conj eq_refl _)).
  exact (archive_then_delete empty_store [] [hello] "2025-07-18T10:00:00"
           eq_refl eq_refl).
Defined.

(** A row past the end of the history (the placeholder row of an empty
    history): nothing is loaded, nothing is deleted, nothing is written. *)
Theorem history_row_out_of_range self h (index : nat) :
  config self !! "history" = Some (JArr h) ->
  (length h <= index)%nat ->
  load_history index self = Ok None /\ delete_history index self = Ok self.
Proof.
  intros Hh Hlen. unfold load_history, delete_history.
  rewrite (get_history _ h Hh). cbn [mbind result_bind Py.len].
  destruct (Nat.ltb_spec index (length h)); [lia|]. split; reflexivity.
Qed.

Lemma history_row_out_of_range_witness :
  config empty_store !! "history" = Some (JArr []) /\
  (length ([] : list json) <= 0)%nat /\
  load_history 0 empty_store = Ok None /\ delete_history 0 empty_store = Ok empty_store.
Proof.
  assert (length ([] : list json) <= 0)%nat as H by (cbn; lia).
  refine (conj eq_refl (conj H _)).
  exact (history_row_out_of_range empty_store [] 0 eq_refl H).
Defined.

End ArchiveFacts.

(** ** The user record and the shared defaults *)

(** [DEFAULT_CONFIG.copy()] is shallow: a configuration that did not take
    its [user] from the file holds the very dict of the class attribute,
    and [set_user_info] updates that dict in place.  This module keeps the
    dict of the class attribute beside the store, and whether the store
    shares it. *)
Module Account.

#[local] Open Scope list_scope.

Record t : Type := Build {
  manager : ConfigManager.t;
  DEFAULT_user : gmap string json;   (* DEFAULT_CONFIG["user"], as it is now *)
  user_shared : bool                 (* config["user"] is DEFAULT_CONFIG["user"] *)
}.

(** The class attribute with its [user] as it is now. *)
Definition DEFAULT_CONFIG_now (user : gmap string json) : list (string * json) :=
  (fun kv : string * json =>
     if String.eqb kv.1 "user" then (kv.1, JObj user) else kv)
    <$> ConfigManager.DEFAULT_CONFIG.

(** [load_config] against the class attribute [D]. *)
Definition load_config (D : list (string * json)) (f : ConfigManager.file)
    : gmap string json :=
  match f with
  | ConfigManager.Missing => list_to_map D
  | ConfigManager.Unreadable => list_to_map D
  | ConfigManager.Document loaded_config =>
      match ConfigManager.merge_keys loaded_config (list_to_map D) D with
      | Ok config => config
      | Raise _ => list_to_map D
      end
  end.

(** After [load_config] the store holds the dict of the class attribute
    unless the file gave a value for [user]. *)
Definition shared_after_load (f : ConfigManager.file) : bool :=
  match f with
  | ConfigManager.Document (JObj doc) => bool_decide (doc !! "user" = None)
  | _ => true
  end.

(** [ConfigManager()] in a process whose class attribute holds [user]. *)
Definition construct (user : gmap string json) (f : ConfigManager.file) (w : bool)
    (written : list (gmap string json)) : t :=
  {| manager := {| ConfigManager.config := load_config (DEFAULT_CONFIG_now user) f;
                   ConfigManager.CONFIG_FILE := f;
                   ConfigManager.writable := w;
                   ConfigManager.written := written |};
     DEFAULT_user := user;
     user_shared := shared_after_load f |}.

(** The first [ConfigManager()] of a process. *)
Definition start (f : ConfigManager.file) (w : bool) : t :=
  construct ConfigManager.DEFAULT_USER f w [].

(** [ConfigManager()] again in the same process, as [DeepSeekApp.logout]
    does through [self.__init__()]: the file is the one the previous store
    left. *)
Definition restart (self : t) : t :=
  construct (DEFAULT_user self)
    (ConfigManager.CONFIG_FILE (manager self))
    (ConfigManager.writable (manager self))
    (ConfigManager.written (manager self)).

Definition user_of (self : t) : option json :=
  ConfigManager.config (manager self) !! "user".

(** [now] is [datetime.now().isoformat()]. *)
Definition set_user_info (username login_type now : string) (self : t) : result t :=
  let '(user, shared) :=
    match user_of self with
    | Some user => (user, user_shared self)
    | None => (JObj (DEFAULT_user self), false)
    end in
  match user with
  | JObj m =>
      let m' := <["last_login" := JStr now]>
                  (<["login_type" := JStr login_type]>
                     (<["username" := JStr username]> m)) in
      Ok {| manager :=
              ConfigManager.save_config
                (ConfigManager.set_config (manager self)
                   (<["user" := JObj m']> (ConfigManager.config (manager self))));
            DEFAULT_user := if shared then m' else DEFAULT_user self;
            user_shared := shared |}
  | _ => Raise TypeError
  end.

Definition logout (self : t) : t :=
  match user_of self with
  | Some _ =>
      {| manager :=
           ConfigManager.save_config
             (ConfigManager.set_config (manager self)
                (<["user" := JObj (DEFAULT_user self)]>
                   (ConfigManager.config (manager self))));
         DEFAULT_user := DEFAULT_user self;
         user_shared := false |}
  | None => self
  end.

(** [user_info.get("username")] on what [get_user_info] returns, as
    [DeepSeekApp.__init__] reads it to decide on the login window. *)
Definition logged_in_as (self : t) : result json :=
  match user_of self with
  | Some user => Py.get user "username" JNull
  | None => Py.get (JObj (DEFAULT_user self)) "username" JNull
  end.

End Account.

Section AccountFacts.

Import Account.
#[local] Open Scope list_scope.

Implicit Types (self : Account.t) (user m : gmap string json) (f : ConfigManager.file).

(** With the [user] of the source the class attribute is the one of the
    store above. *)
Lemma load_config_pristine f :
  load_config (DEFAULT_CONFIG_now ConfigManager.DEFAULT_USER) f = ConfigManager.load_config f.
Proof. reflexivity. Qed.

Lemma DEFAULT_CONFIG_now_keys user :
  (DEFAULT_CONFIG_now user).*1 = ConfigManager.DEFAULT_CONFIG.*1.
Proof. reflexivity. Qed.

Lemma DEFAULT_CONFIG_now_NoDup user : NoDup (DEFAULT_CONFIG_now user).*1.
Proof. rewrite DEFAULT_CONFIG_now_keys. apply DEFAULT_CONFIG_NoDup. Qed.

Lemma DEFAULT_CONFIG_now_user_in user :
  ("user", JObj user) ∈ DEFAULT_CONFIG_now user.
Proof.
  unfold DEFAULT_CONFIG_now, ConfigManager.DEFAULT_CONFIG. cbn.
  do 8 (apply elem_of_cons; right). apply elem_of_cons. now left.
Qed.

Lemma DEFAULT_CONFIG_now_user user :
  (list_to_map (DEFAULT_CONFIG_now user) : gmap string json) !! "user" = Some (JObj user).
Proof.
  apply elem_of_list_to_map_1;
    [apply DEFAULT_CONFIG_now_NoDup | apply DEFAULT_CONFIG_now_user_in].
Qed.

(** The [user] that [load_config] leaves: the dict of the class attribute
    when the file gives none, that dict overlaid with the one of the file
    when the file gives a dict. *)
Lemma load_config_user user f :
  (shared_after_load f = true ->
   load_config (DEFAULT_CONFIG_now user) f !! "user" = Some (JObj user)) /\
  (forall doc udoc, f = ConfigManager.Document (JObj doc) ->
     doc !! "user" = Some (JObj udoc) ->
     load_config (DEFAULT_CONFIG_now user) f !! "user" = Some (JObj (udoc ∪ user))).
Proof.
  split.
  - intros Hs. destruct f as [| |loaded]; cbn [load_config];
      try apply DEFAULT_CONFIG_now_user.
    assert ((exists doc, loaded = JObj doc) \/ (forall doc, loaded <> JObj doc))
      as [[doc ->]|Hnd] by (destruct loaded; eauto; right; discriminate).
    + cbn in Hs. apply bool_decide_eq_true_1 in Hs.
      destruct (merge_keys_dict doc (DEFAULT_CONFIG_now user)
                  (list_to_map (DEFAULT_CONFIG_now user))) as (c & -> & _ & Hin).
      rewrite (Hin (DEFAULT_CONFIG_now_NoDup user) "user" (JObj user)
                 (DEFAULT_CONFIG_now_user_in user)), Hs.
      apply DEFAULT_CONFIG_now_user.
    + destruct (merge_keys_not_dict loaded (DEFAULT_CONFIG_now user)
                  (list_to_map (DEFAULT_CONFIG_now user)) Hnd) as [-> | [e ->]];
        apply DEFAULT_CONFIG_now_user.
  - intros doc udoc -> Hu. cbn [load_config].
    destruct (merge_keys_dict doc (DEFAULT_CONFIG_now user)
                (list_to_map (DEFAULT_CONFIG_now user))) as (c & -> & _ & Hin).
    rewrite (Hin (DEFAULT_CONFIG_now_NoDup user) "user" (JObj user)
               (DEFAULT_CONFIG_now_user_in user)), Hu.
    reflexivity.
Qed.

(** The dict that [set_user_info] makes of [m]. *)
Definition signed_in (username login_type now : string) m : gmap string json :=
  <["last_login" := JStr now]>
    (<["login_type" := JStr login_type]> (<["username" := JStr username]> m)).

Lemma signed_in_username username login_type now m :
  signed_in username login_type now m !! "username" = Some (JStr username).
Proof.
  unfold signed_in.
  rewrite lookup_insert_ne, lookup_insert_ne, lookup_insert_eq by discriminate.
  reflexivity.
Qed.

Lemma set_user_info_dict username login_type now self m :
  user_of self = Some (JObj m) ->
  exists s1,
    set_user_info username login_type now self = Ok s1 /\
    user_of s1 = Some (JObj (signed_in username login_type now m)) /\
    user_shared s1 = user_shared self /\
    DEFAULT_user s1 = (if user_shared self then signed_in username login_type now m
                       else DEFAULT_user self) /\
    ConfigManager.writable (manager s1) = ConfigManager.writable (manager self) /\
    (ConfigManager.writable (manager self) = true ->
     ConfigManager.CONFIG_FILE (manager s1)
     = ConfigManager.Document (JObj (ConfigManager.config (manager s1)))) /\
    (ConfigManager.writable (manager self) = false ->
     ConfigManager.CONFIG_FILE (manager s1) = ConfigManager.CONFIG_FILE (manager self)).
Proof.
  intros Hu. unfold set_user_info. rewrite Hu. eexists. split; [reflexivity|].
  unfold user_of. cbn [manager user_shared DEFAULT_user].
  rewrite config_save_config, writable_save_config. cbn [ConfigManager.config
    ConfigManager.set_config ConfigManager.writable].
  rewrite lookup_insert_eq. repeat split.
  - intros Hw. now rewrite file_save_config.
  - intros Hw. unfold ConfigManager.save_config. cbn. rewrite Hw. reflexivity.
Qed.

Lemma logout_user self v :
  user_of self = Some v ->
  user_of (logout self) = Some (JObj (DEFAULT_user self)) /\
  DEFAULT_user (logout self) = DEFAULT_user self /\
  ConfigManager.writable (manager (logout self)) = ConfigManager.writable (manager self) /\
  (ConfigManager.writable (manager self) = true ->
   ConfigManager.CONFIG_FILE (manager (logout self))
   = ConfigManager.Document (JObj (ConfigManager.config (manager (logout self))))) /\
  (ConfigManager.writable (manager self) = false ->
   ConfigManager.CONFIG_FILE (manager (logout self))
   = ConfigManager.CONFIG_FILE (manager self)).
Proof.
  intros Hu. unfold logout. rewrite Hu. unfold user_of. cbn [manager DEFAULT_user].
  rewrite config_save_config, writable_save_config.
  cbn [ConfigManager.config ConfigManager.set_config ConfigManager.writable].
  rewrite lookup_insert_eq. repeat split.
  - intros Hw. now rewrite file_save_config.
  - intros Hw. unfold ConfigManager.save_config. cbn. rewrite Hw. reflexivity.
Qed.

(** First run: the file gives no [user] (there is no file, or it cannot be
    read, or its document has no such key).  The user logs in and logs
    out.  [set_user_info] has written the name into the dict of the class
    attribute, [logout] copies that dict: the user record is what it was
    before the logout, and the store built anew in the same process, as
    [DeepSeekApp.logout] builds it, still has the name, written file or
    not. *)
Theorem logout_keeps_first_login f (w : bool) (username login_type now : string) :
  shared_after_load f = true ->
  exists s1,
    set_user_info username login_type now (start f w) = Ok s1 /\
    logged_in_as s1 = Ok (JStr username) /\
    user_of (logout s1) = user_of s1 /\
    logged_in_as (logout s1) = Ok (JStr username) /\
    logged_in_as (restart (logout s1)) = Ok (JStr username).
Proof.
  intros Hs.
  assert (user_of (start f w) = Some (JObj ConfigManager.DEFAULT_USER)) as Hu0
    by (apply (proj1 (load_config_user _ f)); exact Hs).
  destruct (set_user_info_dict username login_type now _ _ Hu0)
    as (s1 & Hset & Hu1 & Hsh & Hd & Hw & Hfile & Hfile').
  cbn [start construct user_shared DEFAULT_user manager ConfigManager.writable
       ConfigManager.CONFIG_FILE] in Hsh, Hd, Hw, Hfile, Hfile'.
  rewrite Hs in Hd.
  set (m' := signed_in username login_type now ConfigManager.DEFAULT_USER) in *.
  destruct (logout_user s1 _ Hu1) as (Hu2 & Hd2 & Hw2 & Hf2 & Hf2').
  rewrite Hd in Hu2.
  assert (forall s, user_of s = Some (JObj m') -> logged_in_as s = Ok (JStr username)) as Hin.
  { intros s Hus. unfold logged_in_as. rewrite Hus. cbn [Py.get].
    subst m'. rewrite signed_in_username. reflexivity. }
  exists s1. split; [exact Hset|]. split; [now apply Hin|].
  split; [congruence|]. split; [now apply Hin|].
  unfold logged_in_as, restart, user_of.
  cbn [construct manager ConfigManager.config]. rewrite Hd2, Hd.
  destruct w.
  - rewrite Hf2 by congruence. unfold user_of in Hu2.
    rewrite (proj2 (load_config_user m' _) _ m' eq_refl Hu2).
    cbn [Py.get]. rewrite lookup_union. subst m'. rewrite signed_in_username.
    reflexivity.
  - rewrite Hf2', Hfile' by congruence.
    rewrite (proj1 (load_config_user m' f) Hs).
    cbn [Py.get]. subst m'. rewrite signed_in_username. reflexivity.
Qed.

Lemma logout_keeps_first_login_witness :
  shared_after_load ConfigManager.Missing = true /\
  exists s1,
    set_user_info "dsz" "manual" "2025-07-18T10:00:00" (start ConfigManager.Missing true)
    = Ok s1 /\
    logged_in_as (restart (logout s1)) = Ok (JStr "dsz").
Proof.
  split; [reflexivity|].
  destruct (logout_keeps_first_login ConfigManager.Missing true "dsz" "manual"
              "2025-07-18T10:00:00" eq_refl) as (s1 & H1 & _ & _ & _ & H2).
  exists s1. split; [exact H1 | exact H2].
Defined.

(** The file gives a [user] dict, in a process whose class attribute
    holds [user] at that time.  The store has a dict of its own:
    [set_user_info] leaves the class attribute alone, and [logout] makes
    the user record a copy of the class attribute as it is then.  The
    record and the name after the logout are those of [user]: the
    defaults of the source and no name in a process where no login has
    written into the class attribute, the record of that login otherwise;
    and so they are in the store built anew from the written file. *)
Theorem logout_copies_class_attribute (user doc udoc : gmap string json) (w : bool)
    (written : list (gmap string json)) (username login_type now : string) :
  doc !! "user" = Some (JObj udoc) ->
  exists s1,
    set_user_info username login_type now
      (construct user (ConfigManager.Document (JObj doc)) w written) = Ok s1 /\
    logged_in_as s1 = Ok (JStr username) /\
    DEFAULT_user s1 = user /\
    user_of (logout s1) = Some (JObj user) /\
    logged_in_as (logout s1) = Ok (default JNull (user !! "username")) /\
    (user = ConfigManager.DEFAULT_USER -> logged_in_as (logout s1) = Ok (JStr "")) /\
    (w = true ->
     user_of (restart (logout s1)) = Some (JObj user) /\
     logged_in_as (restart (logout s1)) = Ok (default JNull (user !! "username"))).
Proof.
  intros Hdoc.
  assert (user_of (construct user (ConfigManager.Document (JObj doc)) w written)
          = Some (JObj (udoc ∪ user))) as Hu0
    by (apply (proj2 (load_config_user _ _) doc udoc eq_refl Hdoc)).
  destruct (set_user_info_dict username login_type now _ _ Hu0)
    as (s1 & Hset & Hu1 & Hsh & Hd & Hw & Hfile & Hfile').
  cbn [construct user_shared DEFAULT_user manager ConfigManager.writable
       ConfigManager.CONFIG_FILE shared_after_load] in Hsh, Hd, Hw, Hfile, Hfile'.
  rewrite bool_decide_eq_false_2 in Hd by (rewrite Hdoc; discriminate).
  destruct (logout_user s1 _ Hu1) as (Hu2 & Hd2 & Hw2 & Hf2 & Hf2').
  rewrite Hd in Hu2.
  assert (logged_in_as (logout s1) = Ok (default JNull (user !! "username"))) as Hout.
  { unfold logged_in_as. rewrite Hu2. reflexivity. }
  exists s1. split; [exact Hset|]. split.
  { unfold logged_in_as. rewrite Hu1. cbn [Py.get]. now rewrite signed_in_username. }
  split; [exact Hd|]. split; [exact Hu2|]. split; [exact Hout|]. split.
  { intros ->. exact Hout. }
  intros ->.
  assert (user_of (restart (logout s1)) = Some (JObj user)) as Hu3.
  { unfold restart, user_of. cbn [construct manager ConfigManager.config].
    rewrite Hd2, Hd, Hf2 by congruence. unfold user_of in Hu2.
    rewrite (proj2 (load_config_user _ _) _ user eq_refl Hu2).
    now rewrite (idemp_L (∪) user). }
  split; [exact Hu3|]. unfold logged_in_as. rewrite Hu3. reflexivity.
Qed.

(** A process without a file: the user logs in as [dsz] and logs out.
    [first_store] is the store after that, [user_after_first_login] what
    the class attribute holds then, [doc_after_first_logout] the document
    that the logout wrote. *)
Definition first_store : Account.t :=
  match set_user_info "dsz" "manual" "2025-07-18T10:00:00"
          (start ConfigManager.Missing true) with
  | Ok s1 => logout s1
  | Raise _ => start ConfigManager.Missing true
  end.
Definition user_after_first_login : gmap string json :=
  signed_in "dsz" "manual" "2025-07-18T10:00:00" ConfigManager.DEFAULT_USER.
Definition doc_after_first_logout : gmap string json :=
  <["user" := JObj user_after_first_login]> ConfigManager.DEFAULT_CONFIG_copy.

(** The store that [DeepSeekApp.logout] builds next. *)
Example second_store :
  restart first_store
  = construct user_after_first_login
      (ConfigManager.Document (JObj doc_after_first_logout)) true
      (ConfigManager.written (manager first_store)).
Proof. vm_compute. reflexivity. Qed.

(** In that store a second user logs in and logs out: the name of the
    first one is back. *)
Lemma logout_copies_class_attribute_witness :
  doc_after_first_logout !! "user" = Some (JObj user_after_first_login) /\
  exists s1,
    set_user_info "k" "manual" "2025-07-19T10:00:00"
      (construct user_after_first_login
         (ConfigManager.Document (JObj doc_after_first_logout)) true
         (ConfigManager.written (manager first_store))) = Ok s1 /\
    logged_in_as s1 = Ok (JStr "k") /\
    logged_in_as (logout s1) = Ok (JStr "dsz") /\
    logged_in_as (restart (logout s1)) = Ok (JStr "dsz").
Proof.
  split; [reflexivity|].
  destruct (logout_copies_class_attribute user_after_first_login doc_after_first_logout
              user_after_first_login true (ConfigManager.written (manager first_store))
              "k" "manual" "2025-07-19T10:00:00" eq_refl)
    as (s1 & H1 & H2 & _ & _ & H3 & _ & H4).
  exists s1. split; [exact H1|]. split; [exact H2|]. split; [exact H3|].
  exact (proj2 (H4 eq_refl)).
Defined.

(** On the first store of a process the class attribute is the one of the
    source, and the logout of a user of the file leaves no name. *)
Example logout_of_file_user_first_store :
  exists s1,
    set_user_info "k" "manual" "2025-07-18T10:00:00"
      (start (ConfigManager.Document (JObj foreign_doc)) true) = Ok s1 /\
    logged_in_as s1 = Ok (JStr "k") /\
    logged_in_as (logout s1) = Ok (JStr "").
Proof. eexists. repeat split; vm_compute; reflexivity. Qed.

End AccountFacts.

(** * The rest of the transport and of the worker *)

(** What a generator yields when it is run to its end, and the exception
    that ends it, if one does. *)
Fixpoint yielded {A} (g : gen A) : list A :=
  match g with
  | GYield a g' => a :: yielded g'
  | _ => []
  end.

Fixpoint raised {A} (g : gen A) : option exn :=
  match g with
  | GDone => None
  | GRaise e => Some e
  | GYield _ g' => raised g'
  end.

(** The fragments among the signals of a worker. *)
Fixpoint fragments_of (signals : list ApiRequestThread.signal) : list string :=
  match signals with
  | [] => []
  | ApiRequestThread.response_received chunk :: signals' => chunk :: fragments_of signals'
  | _ :: signals' => fragments_of signals'
  end.

Section TransportFacts.

Import DeepSeekClient.
#[local] Open Scope list_scope.

Variable json_loads : string -> option json.
Variable post : request -> http_result.

Lemma yielded_map_exn (f : exn -> exn) (g : gen json) :
  yielded (gen_map_exn f g) = yielded g.
Proof. induction g as [| |a g IH]; cbn; [reflexivity..|]. now rewrite IH. Qed.

Lemma raised_map_exn (f : exn -> exn) (g : gen json) :
  raised (gen_map_exn f g) = f <$> raised g.
Proof. induction g as [| |a g IH]; cbn; [reflexivity..|]. exact IH. Qed.

Lemma delta_content_truthy (data content : json) :
  delta_content data = Ok (Some content) -> Py.truthy content = true.
Proof.
  unfold delta_content.
  destruct (Py.contains "choices" data) as [[|]|]; cbn [mbind result_bind];
    try discriminate.
  destruct (Py.getitem data "choices") as [choices|]; cbn [mbind result_bind];
    [|discriminate].
  destruct (Py.len choices) as [n|]; cbn [mbind result_bind]; [|discriminate].
  destruct (0 <? n)%nat; [|discriminate].
  destruct (Py.getitem0 choices) as [choice|]; cbn [mbind result_bind]; [|discriminate].
  destruct (Py.get choice "delta" (JObj ∅)) as [d|]; cbn [mbind result_bind];
    [|discriminate].
  destruct (Py.get d "content" (JStr "")) as [c|]; cbn [mbind result_bind];
    [|discriminate].
  destruct (Py.truthy c) eqn:E; [|discriminate]. intros [= <-]. exact E.
Qed.

(** Whatever the lines and the decoder, [process_stream] yields no value
    that Python takes for false: no empty string, no [None]. *)
Lemma process_stream_truthy (lines : list raw_line) (breaks : bool) :
  Forall (fun content => Py.truthy content = true)
    (yielded (process_stream json_loads lines breaks)).
Proof.
  induction lines as [|[s|] lines IH]; cbn [process_stream].
  - destruct breaks; constructor.
  - destruct (String.eqb s ""); [exact IH|].
    destruct (Str.startswith "data:" s); [|exact IH].
    destruct (String.eqb _ "[DONE]"); [constructor|].
    destruct (json_loads _) as [data|]; [|exact IH].
    destruct (delta_content data) as [[content|]|] eqn:E; [|exact IH|constructor].
    cbn [yielded]. constructor; [|exact IH]. exact (delta_content_truthy _ _ E).
  - constructor.
Qed.

(** The exceptions [chat] lets out: never a [KeyError], an [IndexError] or
    a [RequestException], which its [except] clauses turn into
    [ValueError] and [ConnectionError]. *)
Theorem chat_translates_exceptions (self : DeepSeekClient.t) (c : call) (e : exn) :
  raised (chat_call json_loads post self c).2 = Some e ->
  e <> KeyError /\ e <> IndexError /\ e <> RequestException.
Proof.
  unfold chat_call, chat.
  destruct (Qlt_bool _ _); cbn [snd raised].
  - intros [= <-]. repeat split; discriminate.
  - rewrite raised_map_exn.
    destruct (raised _) as [e0|]; cbn; [|discriminate].
    intros [= <-]. destruct e0; repeat split; discriminate.
Qed.

(** A call without streaming that passes the rate check and gets an
    answer whose body is a dict: one fragment, the content of the message
    of the first choice, when the body has one; [ValueError] when the body
    has no [choices] or an empty list of them. *)
Theorem chat_without_stream (self : DeepSeekClient.t) (c : call) (r : response)
    (m : gmap string json) :
  (min_request_interval self <= at_time c - last_request_time self)%Q ->
  stream c = false ->
  post (payload_of self c) = Answer r ->
  json_body r = Some (JObj m) ->
  (forall choice more message content,
     m !! "choices" = Some (JArr (JObj choice :: more)) ->
     choice !! "message" = Some (JObj message) ->
     message !! "content" = Some content ->
     (chat_call json_loads post self c).2 = GYield content GDone) /\
  (m !! "choices" = None \/ m !! "choices" = Some (JArr []) ->
   (chat_call json_loads post self c).2 = GRaise ValueError).
Proof.
  intros Hacc Hstream Hpost Hbody. unfold chat_call, chat.
  apply Qlt_bool_false in Hacc. rewrite Hacc. cbn [snd].
  fold (payload_of self c). rewrite Hpost, Hstream, Hbody.
  unfold message_content, Py.getitem. split.
  - intros choice more message content Hm Hc Hcontent.
    rewrite Hm. cbn [mbind result_bind Py.getitem0]. rewrite Hc.
    cbn [mbind result_bind]. rewrite Hcontent. reflexivity.
  - intros [-> | ->]; reflexivity.
Qed.

End TransportFacts.

Section SilentRecords.

Import DeepSeekClient.
#[local] Open Scope list_scope.

Variable json_loads : string -> option json.

(** The dicts for which [process_stream] has nothing to yield: no
    [choices], an empty list of them, or a first choice whose [delta] is
    missing or has no content, [None] or the empty string for it. *)
Definition silent (m : gmap string json) : Prop :=
  m !! "choices" = None \/
  m !! "choices" = Some (JArr []) \/
  exists choice more,
    m !! "choices" = Some (JArr (JObj choice :: more)) /\
    (choice !! "delta" = None \/
     exists d, choice !! "delta" = Some (JObj d) /\
               (d !! "content" = None \/ d !! "content" = Some JNull \/
                d !! "content" = Some (JStr ""))).

Lemma delta_content_silent (m : gmap string json) :
  silent m -> delta_content (JObj m) = Ok None.
Proof.
  unfold delta_content, Py.contains, Py.getitem.
  intros [Hm | [Hm | (choice & more & Hm & Hd)]]; rewrite Hm.
  - rewrite bool_decide_eq_false_2 by (intros [? ?]; discriminate). reflexivity.
  - rewrite bool_decide_eq_true_2 by eauto. reflexivity.
  - rewrite bool_decide_eq_true_2 by eauto.
    cbn [mbind result_bind Py.len length Nat.ltb Nat.leb Py.getitem0 Py.get].
    destruct Hd as [Hd | (d & Hd & Hc)]; rewrite Hd;
      cbn [default from_option id Py.get mbind result_bind].
    + rewrite lookup_empty. reflexivity.
    + destruct Hc as [-> | [-> | ->]]; reflexivity.
Qed.

(** A record that decodes to such a dict (a keep-alive, a role-only delta,
    the closing record with an empty delta) is passed over: the stream goes
    on with the next line, nothing is yielded and nothing raised. *)
Theorem process_stream_silent_record (payload : string) (m : gmap string json)
    (rest : list raw_line) (breaks : bool) :
  Str.strip payload <> "[DONE]" ->
  json_loads (Str.strip payload) = Some (JObj m) ->
  silent m ->
  process_stream json_loads (Utf8 ("data: " +:+ payload) :: rest) breaks
  = process_stream json_loads rest breaks.
Proof.
  intros Hp Hload Hs. rewrite process_stream_data.
  apply String.eqb_neq in Hp. rewrite Hp, Hload, (delta_content_silent m Hs).
  reflexivity.
Qed.

End SilentRecords.

Section WorkerFacts.

Import ApiRequestThread.
#[local] Open Scope list_scope.

(** The signals of a worker: fragments, then [request_finished], with one
    [error_occurred] before it at most; the fragments are the first values
    of the generator, in the order in which it yields them. *)
Theorem forward_protocol (check_stop : bool) (stop_seen : nat -> bool) (g : gen json) :
  forall i,
  exists chunks tail,
    forward check_stop stop_seen i g = (response_received <$> chunks) ++ tail /\
    (tail = [request_finished] \/ exists msg, tail = [error_occurred msg; request_finished]) /\
    (JStr <$> chunks) `prefix_of` yielded g.
Proof.
  induction g as [|e|chunk g IH]; intros i.
  - exists [], [request_finished]. repeat split; [now left | apply prefix_nil].
  - exists [], [error_occurred (error_msg e); request_finished].
    repeat split; [right; eauto | apply prefix_nil].
  - cbn [forward yielded]. destruct (check_stop && stop_seen i).
    + exists [], [request_finished]. repeat split; [now left | apply prefix_nil].
    + destruct chunk;
        try (exists [], [error_occurred (error_msg TypeError); request_finished];
             repeat split; [right; eauto | apply prefix_nil]).
      destruct (IH (S i)) as (chunks & tail & -> & Htail & Hpre).
      exists (s :: chunks), tail. repeat split; [exact Htail|].
      rewrite fmap_cons. now apply prefix_cons.
Qed.

(** Stop: when the worker first reads the flag set before it forwards the
    fragment of index [k], it has forwarded the [k] fragments before that
    one and emits [request_finished] alone: no further fragment, and no
    error, whatever the generator would have done next. *)
Theorem forward_stopped (stop_seen : nat -> bool) (fragments : list string)
    (g : gen json) (k : nat) :
  (k < length fragments)%nat ->
  (forall i, (i < k)%nat -> stop_seen i = false) ->
  stop_seen k = true ->
  forward true stop_seen 0 (yields (JStr <$> fragments) g)
  = (response_received <$> take k fragments) ++ [request_finished].
Proof.
  intros Hk Hbefore Hat.
  assert (forall fs i, (i + length fs = length fragments)%nat ->
            (i <= k)%nat -> (k < i + length fs)%nat ->
            forward true stop_seen i (yields (JStr <$> fs) g)
            = (response_received <$> take (k - i) fs) ++ [request_finished]) as Hgen.
  { induction fs as [|f fs IH]; intros i Hlen Hle Hlt; cbn [length] in *; [lia|].
    rewrite fmap_cons. cbn [yields forward andb].
    destruct (decide (i = k)) as [->|Hne].
    - rewrite Hat, Nat.sub_diag. reflexivity.
    - rewrite Hbefore by lia.
      rewrite (IH (S i)) by lia.
      replace (k - i)%nat with (S (k - S i)) by lia. reflexivity. }
  rewrite (Hgen fragments 0%nat) by lia. now rewrite Nat.sub_0_r.
Qed.

Definition rate_limit_text : string := "API调用过于频繁，请稍后再试".

(** A worker started on a client whose last accepted request is less than
    the interval old: no request goes out, the client is as it was, and
    the window gets the rate-limit message and then [request_finished]. *)
Theorem run_rate_limited (json_loads : string -> option json)
    (post : DeepSeekClient.request -> DeepSeekClient.http_result)
    (self : ApiRequestThread.t) (client : DeepSeekClient.t) (now : Q)
    (stop_seen : nat -> bool) :
  (now - DeepSeekClient.last_request_time client
   < DeepSeekClient.min_request_interval client)%Q ->
  run json_loads post self client now stop_seen
  = (client, [], [error_occurred rate_limit_text; request_finished]).
Proof.
  intros Hlt. unfold run, DeepSeekClient.chat.
  apply Qlt_bool_iff in Hlt. rewrite Hlt. reflexivity.
Qed.

(** In streaming mode no fragment that reaches the window is empty. *)
Theorem run_streams_no_empty_fragment (json_loads : string -> option json)
    (post : DeepSeekClient.request -> DeepSeekClient.http_result)
    (self : ApiRequestThread.t) (client : DeepSeekClient.t) (now : Q)
    (stop_seen : nat -> bool) :
  Py.truthy (stream self) = true ->
  Forall (fun chunk => chunk <> "")
    (fragments_of (run json_loads post self client now stop_seen).2).
Proof.
  intros Hstream. unfold run. rewrite Hstream.
  destruct (DeepSeekClient.chat _ _ _ _ _ _ _ _) as [[client' io] g] eqn:E.
  cbn [snd].
  assert (Forall (fun content => Py.truthy content = true) (yielded g)) as Hg.
  { unfold DeepSeekClient.chat in E.
    destruct (Qlt_bool _ _); injection E as _ _ <-; [cbn; constructor|].
    rewrite yielded_map_exn.
    destruct (post _) as [| |r]; try (cbn; constructor). apply process_stream_truthy. }
  clear E. generalize 0%nat. induction g as [|e|chunk g IH]; intros i.
  - cbn. apply Forall_nil_2.
  - cbn. apply Forall_nil_2.
  - cbn [forward]. destruct (true && stop_seen i); [cbn; apply Forall_nil_2|].
    cbn [yielded] in Hg. apply Forall_cons in Hg as [Hc Hg].
    destruct chunk; try (cbn; apply Forall_nil_2).
    cbn [fragments_of]. apply Forall_cons_2; [|apply IH; exact Hg].
    intros ->. discriminate Hc.
Qed.

End WorkerFacts.

Section TransportExamples.

Import DeepSeekClient ApiRequestThread.
#[local] Open Scope list_scope.

(** A server that answers every request with the body [body]. *)
Definition answering (body : json) : request -> http_result :=
  fun _ => Answer {| iter_lines := []; iter_lines_breaks := false;
                     json_body := Some body |}.

Definition whole_reply : gmap string json :=
  {[ "choices" := JArr [JObj {[ "message" := JObj {[ "content" := JStr "Hello" ]} ]}] ]}.

Definition plain_call : call := Call 100 [hello] (JStr "deepseek-chat") 2048 false.

Lemma chat_translates_exceptions_witness :
  raised (chat_call no_json unreachable fresh_client (call_at 100)).2
  = Some ConnectionError /\
  ConnectionError <> KeyError /\ ConnectionError <> IndexError /\
  ConnectionError <> RequestException.
Proof.
  split; [reflexivity|].
  exact (chat_translates_exceptions no_json unreachable fresh_client (call_at 100)
           ConnectionError eq_refl).
Defined.

Lemma chat_without_stream_witness :
  (chat_call no_json (answering (JObj whole_reply)) fresh_client plain_call).2
  = GYield (JStr "Hello") GDone.
Proof.
  assert (min_request_interval fresh_client
          <= at_time plain_call - last_request_time fresh_client)%Q as Hacc
    by (vm_compute; discriminate).
  refine (proj1 (chat_without_stream no_json (answering (JObj whole_reply)) fresh_client
                   plain_call _ whole_reply Hacc eq_refl eq_refl eq_refl)
            _ [] _ (JStr "Hello") _ _ _).
  - apply lookup_singleton_eq.
  - apply lookup_singleton_eq.
  - apply lookup_singleton_eq.
Defined.

Lemma process_stream_silent_record_witness :
  process_stream sample_loads [Utf8 "data: {}"; Utf8 "data: {lo}"] false
  = process_stream sample_loads [Utf8 "data: {lo}"] false.
Proof.
  refine (process_stream_silent_record sample_loads "{}"
            {[ "choices" := JArr [JObj {[ "delta" := JObj {[ "content" := JStr "" ]} ]}] ]}
            [Utf8 "data: {lo}"] false _ eq_refl _).
  - discriminate.
  - right. right. eexists _, _. split; [apply lookup_singleton_eq|].
    right. eexists. split; [apply lookup_singleton_eq|].
    right. right. apply lookup_singleton_eq.
Defined.

Lemma forward_stopped_witness :
  forward true (fun i => (1 <=? i)%nat) 0
    (yields (JStr <$> ["Hel"; "lo"; " world"]) (GRaise ConnectionError))
  = [response_received "Hel"; request_finished].
Proof.
  refine (forward_stopped (fun i => (1 <=? i)%nat) ["Hel"; "lo"; " world"]
            (GRaise ConnectionError) 1 _ _ eq_refl).
  - cbn. lia.
  - intros i Hi. destruct i; [reflexivity | lia].
Defined.

Definition streaming_thread : ApiRequestThread.t :=
  ApiRequestThread.Build [hello] (JStr "deepseek-chat") (JBool true) false.

Lemma run_rate_limited_witness :
  run no_json unreachable streaming_thread (stamped fresh_client 100) (1006 # 10)
    (fun _ => false)
  = (stamped fresh_client 100, [], [error_occurred rate_limit_text; request_finished]).
Proof.
  refine (run_rate_limited no_json unreachable streaming_thread (stamped fresh_client 100)
            (1006 # 10) (fun _ => false) _).
  reflexivity.
Defined.

Lemma run_streams_no_empty_fragment_witness :
  Forall (fun chunk => chunk <> "")
    (fragments_of (run no_json unreachable streaming_thread fresh_client 100
                     (fun _ => false)).2).
Proof.
  exact (run_streams_no_empty_fragment no_json unreachable streaming_thread fresh_client
           100 (fun _ => false) eq_refl).
Defined.

End TransportExamples.

(** * The rest of the controller *)

Module MainWindow.

#[local] Open Scope list_scope.

Import DeepSeekApp.


(** A list or a dict cannot be the key of a dict lookup. *)
Definition hashable (x : json) : bool :=
  match x with
  | JArr _ | JObj _ => false
  | _ => true
  end.

(** [on_settings_saved]: the language is looked up in the table of
    [I18n], the texts of the window are set again, for which the user
    record is read, and the client is made anew when there is a credential.
    The texts and the theme themselves belong to the widgets. *)
Definition on_settings_saved (self : DeepSeekApp.t) : result DeepSeekApp.t :=
  language ← ConfigManager.get (config_manager self) "language";
  if hashable language then
    let '(cm1, user_info) := ConfigManager.get_user_info (config_manager self) in
    _ ← Py.get user_info "username" (JStr "未登录用户");
    api_key ← ConfigManager.get cm1 "api_key";
    Ok {| config_manager := cm1;
          client := if Py.truthy api_key then Some (DeepSeekClient.init api_key)
                    else client self;
          streaming := streaming self; current_response := current_response self;
          messages := messages self; send_button := send_button self;
          stop_button := stop_button self; api_threads := api_threads self;
          critical := critical self |}
  else Raise TypeError.

End MainWindow.

Section ExchangeFacts.

Import DeepSeekApp MainWindow.
#[local] Open Scope list_scope.

Implicit Types (self : DeepSeekApp.t).



(** An exchange without a fragment, because the generator ends at once or
    because it raises before it yields (rate limit, network): no assistant
    message is added, the user's message stays in the conversation and in
    the saved session, the window is idle, and the error, if there was
    one, has been shown. *)
Theorem exchange_without_reply self self1 (text : string) (failure : option exn)
    (check_stop : bool) (stop_seen : nat -> bool) :
  client self <> None ->
  Str.strip text <> "" ->
  send_message text self = Ok self1 ->
  let g : gen json := match failure with Some e => GRaise e | None => GDone end in
  exists self2,
    handle_all self1 (from_worker <$> ApiRequestThread.forward check_stop stop_seen 0 g)
    = Ok self2 /\
    messages self2 = messages self ++ [message "user" (Str.strip text)] /\
    ConfigManager.config (config_manager self2) !! "current_session"
    = Some (JArr (messages self2)) /\
    streaming self2 = false /\ send_button self2 = true /\ stop_button self2 = false /\
    critical self2
    = critical self ++ match failure with
                       | Some e => [error (ApiRequestThread.error_msg e)]
                       | None => []
                       end.
Proof.
  intros Hc Htext Hsend g.
  destruct (send_message_started self text self1 Hc Htext Hsend)
    as (Hm & Hr & _ & _ & _ & Hcrit & _).
  assert (ConfigManager.config (config_manager self1) !! "current_session"
          = Some (JArr (messages self1))) as Hsaved.
  { revert Hsend. unfold send_message.
    apply String.eqb_neq in Htext. rewrite Htext.
    destruct (client self); [|congruence].
    destruct (ConfigManager.get_user_info (config_manager self)) as [cm1 user_info].
    destruct (Py.get user_info "username" (JStr "用户")); [|discriminate].
    cbn [mbind result_bind]. rewrite !get_plain_key by reflexivity.
    cbn [mbind result_bind]. intros [= <-]. cbn [config_manager messages].
    apply session_saved. }
  subst g. destruct failure as [e|]; cbn [ApiRequestThread.forward];
    cbn [fmap list_fmap handle_all handle mbind result_bind];
    eexists; (split; [reflexivity|]);
    unfold on_request_finished, commit_response;
    cbn [back_to_idle on_api_error current_response]; rewrite Hr; cbn;
    rewrite Hm, Hcrit, ?app_nil_r; rewrite <- Hm; repeat split; exact Hsaved.
Qed.

Lemma exchange_without_reply_witness :
  exists self2,
    handle_all asked_window
      (from_worker <$> ApiRequestThread.forward true (fun _ => false) 0
                         (GRaise RateLimitExceeded)) = Ok self2 /\
    messages self2 = [message "user" "hi"] /\
    critical self2 = [error rate_limit_text].
Proof.
  assert (client ready_window <> None) as H1 by discriminate.
  assert (Str.strip "hi" <> "") as H2 by discriminate.
  destruct (exchange_without_reply ready_window asked_window "hi" (Some RateLimitExceeded)
              true (fun _ => false) H1 H2 asked_window_sent)
    as (self2 & Hrun & Hm & _ & _ & _ & _ & Hcr).
  exists self2. split; [exact Hrun|]. split; [exact Hm | exact Hcr].
Defined.

End ExchangeFacts.

Section WindowInvariants.

Import DeepSeekApp MainWindow.
#[local] Open Scope list_scope.

Implicit Types (self : DeepSeekApp.t).

(** The two buttons follow [streaming]: Send is enabled when nothing is
    streaming, Stop when something is. *)
Definition buttons_follow self : Prop :=
  send_button self = negb (streaming self) /\ stop_button self = streaming self.

(** The saved session is the conversation of the window, and it is what
    the file holds when the file can be written. *)
Definition session_in_store self : Prop :=
  ConfigManager.config (config_manager self) !! "current_session"
  = Some (JArr (messages self)) /\
  (ConfigManager.writable (config_manager self) = true ->
   ConfigManager.CONFIG_FILE (config_manager self)
   = ConfigManager.Document (JObj (ConfigManager.config (config_manager self)))).

(** The three ways [send_message] returns. *)
Lemma send_message_cases self (text : string) self' :
  send_message text self = Ok self' ->
  self' = self \/
  (config_manager self' = config_manager self /\ messages self' = messages self /\
   streaming self' = streaming self /\ send_button self' = send_button self /\
   stop_button self' = stop_button self) \/
  (streaming self' = true /\ send_button self' = false /\ stop_button self' = true /\
   exists cm1,
     ConfigManager.writable cm1 = ConfigManager.writable (config_manager self) /\
     config_manager self' = ConfigManager.save_current_session (messages self') cm1).
Proof.
  unfold send_message. destruct (String.eqb (Str.strip text) "").
  { intros [= <-]. now left. }
  destruct (client self).
  2: { intros [= <-]. right. left. repeat split. }
  destruct (ConfigManager.get_user_info (config_manager self)) as [cm1 user_info] eqn:Hu.
  destruct (Py.get user_info "username" (JStr "用户")); [|discriminate].
  cbn [mbind result_bind]. rewrite !get_plain_key by reflexivity.
  cbn [mbind result_bind]. intros [= <-]. right. right. cbn.
  repeat split. exists cm1. split; [|reflexivity].
  unfold ConfigManager.get_user_info in Hu.
  destruct (ConfigManager.config (config_manager self) !! "user");
    injection Hu as <- _; [reflexivity|].
  now rewrite writable_save_config.
Qed.

Lemma writable_save_current_session (msgs : list json) (cm : ConfigManager.t) :
  ConfigManager.writable (ConfigManager.save_current_session msgs cm)
  = ConfigManager.writable cm.
Proof. unfold ConfigManager.save_current_session. now rewrite writable_save_config. Qed.

Lemma commit_response_cases self :
  commit_response self = self \/
  (config_manager (commit_response self)
   = ConfigManager.save_current_session (messages (commit_response self))
       (config_manager self) /\
   streaming (commit_response self) = streaming self /\
   send_button (commit_response self) = send_button self /\
   stop_button (commit_response self) = stop_button self).
Proof.
  unfold commit_response. destruct (Py.truthy _); [right|left]; repeat split.
Qed.

Lemma buttons_follow_handle self (ev : event) self' :
  buttons_follow self -> handle self ev = Ok self' -> buttons_follow self'.
Proof.
  intros Hb Hev.
  assert (forall s, buttons_follow (commit_response (back_to_idle s))) as Hidle.
  { intros s. destruct (commit_response_cases (back_to_idle s)) as [-> | (_ & H1 & H2 & H3)];
      [split; reflexivity|].
    split; [rewrite H2, H1 | rewrite H3, H1]; reflexivity. }
  assert (forall text s', send_message text self = Ok s' -> buttons_follow s') as Hsend.
  { intros text s' Hm.
    destruct (send_message_cases _ _ _ Hm)
      as [-> | [(_ & _ & H1 & H2 & H3) | (H1 & H2 & H3 & _)]]; [exact Hb| |].
    - destruct Hb as [Hb1 Hb2]. split; congruence.
    - split; [rewrite H2, H1 | rewrite H3, H1]; reflexivity. }
  destruct ev as [text|text| |[chunk|msg|]]; cbn [handle] in Hev.
  - destruct (send_button self); [eauto|]. injection Hev as <-. exact Hb.
  - eauto.
  - injection Hev as <-. destruct (stop_button self); [|exact Hb].
    unfold stop_streaming. destruct (streaming self); [|exact Hb].
    destruct (api_threads self); [exact Hb|].
    match goal with |- buttons_follow (commit_response ?s) =>
      destruct (commit_response_cases s) as [-> | (_ & H1 & H2 & H3)] end;
      [split; reflexivity|].
    split; [rewrite H2, H1 | rewrite H3, H1]; reflexivity.
  - injection Hev as <-. exact Hb.
  - injection Hev as <-. split; reflexivity.
  - injection Hev as <-. apply Hidle.
Qed.

(** Whatever the user does and the workers emit, the buttons follow
    [streaming]. *)
Theorem buttons_follow_streaming self (evs : list event) self' :
  buttons_follow self -> handle_all self evs = Ok self' -> buttons_follow self'.
Proof.
  revert self. induction evs as [|ev evs IH]; intros self Hb Hrun.
  - injection Hrun as <-. exact Hb.
  - cbn [handle_all] in Hrun. destruct (handle self ev) as [s1|] eqn:E; [|discriminate].
    cbn [mbind result_bind] in Hrun.
    exact (IH s1 (buttons_follow_handle _ _ _ Hb E) Hrun).
Qed.

Lemma buttons_follow_streaming_witness :
  buttons_follow ready_window /\
  handle_all ready_window stopped_exchange = Ok (after ready_window stopped_exchange) /\
  buttons_follow (after ready_window stopped_exchange).
Proof.
  assert (buttons_follow ready_window) as H1 by (split; reflexivity).
  assert (handle_all ready_window stopped_exchange
          = Ok (after ready_window stopped_exchange)) as H2 by (vm_compute; reflexivity).
  refine (conj H1 (conj H2 _)).
  exact (buttons_follow_streaming ready_window stopped_exchange _ H1 H2).
Defined.

Lemma session_in_store_saved (msgs : list json) (cm1 : ConfigManager.t) self' :
  config_manager self' = ConfigManager.save_current_session msgs cm1 ->
  messages self' = msgs ->
  session_in_store self'.
Proof.
  intros Hcm Hm. unfold session_in_store. rewrite Hcm, Hm. split.
  - apply session_saved.
  - rewrite writable_save_current_session. apply session_written.
Qed.

Lemma session_in_store_commit self :
  session_in_store self -> session_in_store (commit_response self).
Proof.
  intros Hs. destruct (commit_response_cases self) as [-> | (H & _)]; [exact Hs|].
  exact (session_in_store_saved _ (config_manager self) _ H eq_refl).
Qed.

Lemma session_in_store_handle self (ev : event) self' :
  session_in_store self -> handle self ev = Ok self' -> session_in_store self'.
Proof.
  intros Hs Hev.
  assert (forall s text s', session_in_store s -> send_message text s = Ok s' ->
                            session_in_store s') as Hsend.
  { intros s text s' Hss Hm.
    destruct (send_message_cases _ _ _ Hm)
      as [-> | [(H1 & H2 & _) | (_ & _ & _ & cm1 & _ & H)]]; [exact Hss| |].
    - unfold session_in_store. rewrite H1, H2. exact Hss.
    - exact (session_in_store_saved _ cm1 _ H eq_refl). }
  destruct ev as [text|text| |[chunk|msg|]]; cbn [handle] in Hev.
  - destruct (send_button self); [eauto|]. injection Hev as <-. exact Hs.
  - eauto.
  - injection Hev as <-. destruct (stop_button self); [|exact Hs].
    unfold stop_streaming. destruct (streaming self); [|exact Hs].
    destruct (api_threads self); [exact Hs|].
    apply session_in_store_commit. exact Hs.
  - injection Hev as <-. exact Hs.
  - injection Hev as <-. exact Hs.
  - injection Hev as <-. apply session_in_store_commit. exact Hs.
Qed.

(** Write-through: whatever the user does and the workers emit, the saved
    session is the conversation of the window. *)
Theorem session_stays_in_store self (evs : list event) self' :
  session_in_store self -> handle_all self evs = Ok self' -> session_in_store self'.
Proof.
  revert self. induction evs as [|ev evs IH]; intros self Hb Hrun.
  - injection Hrun as <-. exact Hb.
  - cbn [handle_all] in Hrun. destruct (handle self ev) as [s1|] eqn:E; [|discriminate].
    cbn [mbind result_bind] in Hrun.
    exact (IH s1 (session_in_store_handle _ _ _ Hb E) Hrun).
Qed.

Lemma session_stays_in_store_witness :
  session_in_store asked_window /\
  handle_all asked_window [click_stop] = Ok (after asked_window [click_stop]) /\
  session_in_store (after asked_window [click_stop]).
Proof.
  assert (session_in_store asked_window) as H1.
  { split; [vm_compute; reflexivity | intros _; vm_compute; reflexivity]. }
  assert (handle_all asked_window [click_stop] = Ok (after asked_window [click_stop]))
    as H2 by (vm_compute; reflexivity).
  refine (conj H1 (conj H2 _)).
  exact (session_stays_in_store asked_window [click_stop] _ H1 H2).
Defined.

End WindowInvariants.

Section WindowEdges.

Import DeepSeekApp MainWindow.
#[local] Open Scope list_scope.

Implicit Types (self : DeepSeekApp.t).

(** The settings as the dialog leaves them: a language that is a string
    and a user record that is a dict. *)
Definition settings_readable self : Prop :=
  (exists language,
     ConfigManager.config (config_manager self) !! "language" = Some (JStr language)) /\
  (exists user,
     ConfigManager.config (config_manager self) !! "user" = Some (JObj user)).

Lemma on_settings_saved_readable self (key : json) :
  settings_readable self ->
  ConfigManager.config (config_manager self) !! "api_key" = Some key ->
  on_settings_saved self
  = Ok {| config_manager := config_manager self;
          client := if Py.truthy key then Some (DeepSeekClient.init key) else client self;
          streaming := streaming self; current_response := current_response self;
          messages := messages self; send_button := send_button self;
          stop_button := stop_button self; api_threads := api_threads self;
          critical := critical self |}.
Proof.
  intros [[language Hl] [user Hu]] Hkey. unfold on_settings_saved.
  rewrite get_plain_key by reflexivity. rewrite Hl. cbn [mbind result_bind hashable].
  unfold ConfigManager.get_user_info. rewrite Hu. cbn [Py.get mbind result_bind].
  rewrite get_plain_key by reflexivity. rewrite Hkey. reflexivity.
Qed.

(** Saving the settings with a credential makes a new client, whose time
    of last request is 0: whatever the client before had recorded, the
    next call passes the rate check (at any clock reading from 1 second
    on) and its request goes out. *)
Theorem settings_saved_resets_rate_limit self (key : json)
    (json_loads : string -> option json)
    (post : DeepSeekClient.request -> DeepSeekClient.http_result)
    (c : DeepSeekClient.call) :
  settings_readable self ->
  ConfigManager.config (config_manager self) !! "api_key" = Some key ->
  Py.truthy key = true ->
  (1 <= DeepSeekClient.at_time c)%Q ->
  exists self',
    on_settings_saved self = Ok self' /\
    client self' = Some (DeepSeekClient.init key) /\
    (DeepSeekClient.chat_call json_loads post (DeepSeekClient.init key) c).1
    = (stamped (DeepSeekClient.init key) (DeepSeekClient.at_time c),
       [payload_of (DeepSeekClient.init key) c]).
Proof.
  intros Hread Hkey Htruthy Hnow.
  rewrite (on_settings_saved_readable self key Hread Hkey), Htruthy.
  eexists. split; [reflexivity|]. split; [reflexivity|].
  apply chat_accepted. cbn [DeepSeekClient.init DeepSeekClient.min_request_interval
    DeepSeekClient.last_request_time].
  apply Qle_trans with (DeepSeekClient.at_time c); [exact Hnow|].
  apply Qle_minus_iff. unfold Qminus. rewrite Qplus_comm, Qplus_assoc.
  rewrite (Qplus_comm (- _)%Q), Qplus_opp_r. apply Qle_refl.
Qed.

(** The window a moment after an accepted request at 100 s. *)
Definition busy_window : DeepSeekApp.t :=
  {| config_manager := configured_store;
     client := Some (stamped fresh_client 100);
     streaming := false; current_response := ""; messages := [];
     send_button := true; stop_button := false; api_threads := []; critical := [] |}.

Lemma settings_saved_resets_rate_limit_witness :
  (DeepSeekClient.chat_call no_json unreachable (stamped fresh_client 100)
     (call_at (1002 # 10))).1 = (stamped fresh_client 100, []) /\
  exists self',
    on_settings_saved busy_window = Ok self' /\
    client self' = Some fresh_client /\
    (DeepSeekClient.chat_call no_json unreachable fresh_client (call_at (1002 # 10))).1
    = (stamped fresh_client (1002 # 10), [payload_of fresh_client (call_at (1002 # 10))]).
Proof.
  split; [reflexivity|].
  assert (ConfigManager.config (config_manager busy_window) !! "api_key"
          = Some (JStr "sk-test")) as H1 by (vm_compute; reflexivity).
  assert (1 <= DeepSeekClient.at_time (call_at (1002 # 10)))%Q as H2
    by (vm_compute; discriminate).
  assert (settings_readable busy_window) as H0.
  { split; eexists; vm_compute; reflexivity. }
  exact (settings_saved_resets_rate_limit busy_window (JStr "sk-test") no_json unreachable
           (call_at (1002 # 10)) H0 H1 eq_refl H2).
Defined.

(** Saving the settings with an empty credential leaves the client that
    was there. *)
Theorem settings_saved_keeps_client self (key : json) :
  settings_readable self ->
  ConfigManager.config (config_manager self) !! "api_key" = Some key ->
  Py.truthy key = false ->
  exists self', on_settings_saved self = Ok self' /\ client self' = client self.
Proof.
  intros Hread Hkey Hfalsy.
  rewrite (on_settings_saved_readable self key Hread Hkey), Hfalsy.
  eexists. split; reflexivity.
Qed.

(** The store once the credential has been emptied in the dialog. *)
Definition emptied_key_window : DeepSeekApp.t :=
  {| config_manager :=
       ConfigManager.set_config configured_store
         (<["api_key" := JStr ""]> (ConfigManager.config configured_store));
     client := Some fresh_client;
     streaming := false; current_response := ""; messages := [];
     send_button := true; stop_button := false; api_threads := []; critical := [] |}.

Lemma settings_saved_keeps_client_witness :
  exists self',
    on_settings_saved emptied_key_window = Ok self' /\ client self' = Some fresh_client.
Proof.
  assert (settings_readable emptied_key_window) as H0.
  { split; eexists; vm_compute; reflexivity. }
  assert (ConfigManager.config (config_manager emptied_key_window) !! "api_key"
          = Some (JStr "")) as H1 by (vm_compute; reflexivity).
  exact (settings_saved_keeps_client emptied_key_window (JStr "") H0 H1 eq_refl).
Defined.



End WindowEdges.
